(** * boompow server: credential middleware and authorization predicates

    A shallow embedding of [apps/server/src/middleware] (the
    [AuthMiddleware] handler and the five [Authorized*] predicates) and of
    the two channels built by [runServer], with the properties the
    specification states about them. *)

From Stdlib Require Import String Ascii List Bool Arith NArith Lia.
Import ListNotations.
Local Open Scope string_scope.
Local Open Scope list_scope.

(** ** Go values *)

Module Go.

(** Outcome of evaluating a Go expression: a value, or a run-time panic
    (here only a nil pointer dereference can raise one). *)
Inductive exec (A : Type) : Type :=
| Val (a : A)
| Panic (msg : string).
Arguments Val {A} a.
Arguments Panic {A} msg.

Definition bind {A B} (m : exec A) (k : A -> exec B) : exec B :=
  match m with
  | Val a => k a
  | Panic msg => Panic msg
  end.

(** [(value, error)] result pair of a fallible call; the code below never
    reads the value when the error is non-nil. *)
Inductive result (A : Type) : Type :=
| Ok (a : A)
| Err (e : string).
Arguments Ok {A} a.
Arguments Err {A} e.

(** [p.f] on a pointer [p]: panics when [p] is nil. *)
Definition field {A B} (p : option A) (f : A -> B) : exec B :=
  match p with
  | Some a => Val (f a)
  | None => Panic "invalid memory address or nil pointer dereference"
  end.

(** [a || b]: [b] is evaluated only when [a] is false. *)
Definition or_else (a b : exec bool) : exec bool :=
  bind a (fun x => if x then Val true else b).

Definition is_nil {A} (p : option A) : bool :=
  match p with
  | Some _ => false
  | None => true
  end.

(** [strings.HasPrefix(s, prefix)] *)
Definition HasPrefix (s prefix : string) : bool := String.prefix prefix s.

(** [s[n:]] for [n <= len(s)] *)
Definition slice_from (n : nat) (s : string) : string :=
  substring n (String.length s - n) s.

(** [slices.Contains(xs, x)] on strings *)
Definition Contains (xs : list string) (x : string) : bool :=
  existsb (fun y => String.eqb y x) xs.

End Go.

Import Go.

Declare Scope go_scope.
Delimit Scope go_scope with go.
Notation "x <- m ;; k" := (bind m (fun x => k))
  (at level 61, m at next level, right associativity) : go_scope.
Notation "a ||| b" := (or_else a b)
  (at level 50, left associativity) : go_scope.
Local Open Scope go_scope.

(** ** Data model *)

Module models.

(** Modelled from the spec: the [models] package (type [User] and its
    [UserType] constants) is not among the sources; section 3 gives the
    identity record as [EmailVerified: bool], [CanRequestWork: bool],
    [Type: enum{PROVIDER, REQUESTER}]. *)
Inductive UserType : Type := PROVIDER | REQUESTER.

Definition UserType_eqb (a b : UserType) : bool :=
  match a, b with
  | PROVIDER, PROVIDER | REQUESTER, REQUESTER => true
  | _, _ => false
  end.

Record User : Type := mkUser {
  EmailVerified : bool;
  CanRequestWork : bool;
  Type_ : UserType
}.

End models.

Module middleware.

Import models.

(** [type UserContextValue struct { User *models.User; AuthType string }] *)
Record UserContextValue : Type := mkUserContextValue {
  User : option models.User;
  AuthType : string
}.

(** Keys of a [context.Context].  [userCtxKey] is a pointer to a
    [contextKey] allocated once by the package; keys are compared by
    identity, so a pointer key is its allocation and any other comparable
    value is kept apart. *)
Inductive key : Type :=
| contextKeyPtr (alloc : nat)
| otherKey (name : string).

Definition key_eqb (a b : key) : bool :=
  match a, b with
  | contextKeyPtr m, contextKeyPtr n => Nat.eqb m n
  | otherKey s, otherKey t => String.eqb s t
  | _, _ => false
  end.

Definition userCtxKey : key := contextKeyPtr 0.

(** Dynamically typed values ([any]) stored in a context. *)
Inductive any : Type :=
| nil_any
| ptr_UserContextValue (p : option UserContextValue)
| struct_UserContextValue (v : UserContextValue)
| string_any (s : string)
| int_any (n : nat).

(** [context.Context], as far as [Value] can observe it. *)
Inductive Context : Type :=
| Background
| WithValue (parent : Context) (k : key) (val : any).

Fixpoint Value (ctx : Context) (k : key) : any :=
  match ctx with
  | Background => nil_any
  | WithValue parent k' val => if key_eqb k' k then val else Value parent k
  end.

(** [raw, _ := ctx.Value(userCtxKey).( *UserContextValue); return raw] *)
Definition forContext (ctx : Context) : option UserContextValue :=
  match Value ctx userCtxKey with
  | ptr_UserContextValue p => p
  | _ => None
  end.

Definition neq_string (a b : string) : bool := negb (String.eqb a b).
Definition neq_type (a b : UserType) : bool := negb (UserType_eqb a b).

Definition user_nil (cv : option UserContextValue) : exec bool :=
  u <- field cv User ;; Val (is_nil u).

Definition authtype_ne (cv : option UserContextValue) (t : string) : exec bool :=
  a <- field cv AuthType ;; Val (neq_string a t).

Definition user_flag (cv : option UserContextValue) (f : models.User -> bool)
  : exec bool :=
  u <- field cv User ;; field u f.

Definition user_type_ne (cv : option UserContextValue) (t : UserType)
  : exec bool :=
  u <- field cv User ;; ty <- field u Type_ ;; Val (neq_type ty t).

Definition not_ (m : exec bool) : exec bool := b <- m ;; Val (negb b).

Definition guard (deny : exec bool) (cv : option UserContextValue)
  : exec (option UserContextValue) :=
  d <- deny ;; Val (if d then None else cv).

Definition AuthorizedUser (ctx : Context) : exec (option UserContextValue) :=
  let contextValue := forContext ctx in
  guard (Val (is_nil contextValue)
         ||| user_nil contextValue
         ||| authtype_ne contextValue "jwt")
        contextValue.

Definition AuthorizedProvider (ctx : Context) : exec (option UserContextValue) :=
  let contextValue := forContext ctx in
  guard (Val (is_nil contextValue)
         ||| user_nil contextValue
         ||| authtype_ne contextValue "jwt"
         ||| not_ (user_flag contextValue EmailVerified)
         ||| user_type_ne contextValue PROVIDER)
        contextValue.

Definition AuthorizedRequester (ctx : Context) : exec (option UserContextValue) :=
  let contextValue := forContext ctx in
  guard (Val (is_nil contextValue)
         ||| user_nil contextValue
         ||| authtype_ne contextValue "jwt"
         ||| not_ (user_flag contextValue EmailVerified)
         ||| not_ (user_flag contextValue CanRequestWork)
         ||| user_type_ne contextValue REQUESTER)
        contextValue.

Definition AuthorizedServiceToken (ctx : Context) : exec (option UserContextValue) :=
  let contextValue := forContext ctx in
  guard (Val (is_nil contextValue)
         ||| user_nil contextValue
         ||| authtype_ne contextValue "token"
         ||| not_ (user_flag contextValue EmailVerified)
         ||| not_ (user_flag contextValue CanRequestWork)
         ||| user_type_ne contextValue REQUESTER)
        contextValue.

Definition AuthorizedChangePassword (ctx : Context) : exec (option UserContextValue) :=
  let contextValue := forContext ctx in
  guard (Val (is_nil contextValue)
         ||| user_nil contextValue
         ||| authtype_ne contextValue "token")
        contextValue.

End middleware.

(** ** The credential middleware *)

Module http.

Import middleware.

(** [http.Header]: canonical header name to its values. *)
Definition Header : Type := list (string * list string).

(** [h.Get(name)]: first value stored under [name], the empty string when
    there is none. *)
Fixpoint Header_Get (h : Header) (name : string) : string :=
  match h with
  | [] => EmptyString
  | (k, vs) :: rest =>
      if String.eqb k name then hd EmptyString vs else Header_Get rest name
  end.

Record Request : Type := mkRequest {
  header : Header;
  context : Context;
  RemoteAddr : string
}.

(** [r.WithContext(ctx)] *)
Definition WithContext (r : Request) (ctx : Context) : Request :=
  {| header := header r; context := ctx; RemoteAddr := RemoteAddr r |}.

Definition StatusForbidden : nat := 403.

(** What a handler did with the request: handed it to the next handler, or
    answered with [http.Error(w, error, code)]. *)
Inductive Outcome : Type :=
| ServeNext (r : Request)
| Error (error : string) (code : nat).

End http.

Module auth.

Import middleware http.

Definition UUID : Type := N.

(** The packages the middleware calls into and that lie outside the
    sources: each call is a field, a fallible one returns [result]. *)
Record Collaborators : Type := mkCollaborators {
  (* auth.ParseToken(token) -> (email, err) *)
  ParseToken : string -> result string;
  (* database.GetRedisDB().GetResetPasswordToken(email) *)
  GetResetPasswordToken : string -> result string;
  (* utils.GetServiceTokens() *)
  GetServiceTokens : list string;
  (* database.GetRedisDB().GetServiceTokenUser(header) *)
  GetServiceTokenUser : string -> result string;
  (* uuid.Parse(userID) *)
  uuid_Parse : string -> result UUID;
  (* userRepo.GetUser(id, email) -> ( *models.User, err) *)
  GetUser : option UUID -> option string -> result (option models.User);
  (* net.GetIPAddress(r) *)
  GetIPAddress : Request -> string;
  (* json.Marshal(graphql.ErrorResponse(ctx, message)) *)
  MarshalErrorResponse : Context -> string -> result string
}.

Definition dquote : string := String "034"%char EmptyString.

(** The literal returned when marshalling fails:
    ["errors": [{"message": "Unknown"}]] *)
Definition unknownError : string :=
  dquote ++ "errors" ++ dquote ++ ": [{" ++ dquote ++ "message" ++ dquote
  ++ ": " ++ dquote ++ "Unknown" ++ dquote ++ "}]".

Definition formatGraphqlError (C : Collaborators) (ctx : Context) (msg : string)
  : string :=
  match MarshalErrorResponse C ctx "Invalid token" with
  | Err _ => unknownError
  | Ok marshalled => marshalled
  end.

(** Effects of one run of the handler: the lines written with
    [klog.Errorf], in order, and what became of the request. *)
Record Run : Type := mkRun {
  log : list string;
  outcome : Outcome
}.

Definition invalidToken (C : Collaborators) (r : Request) (lines : list string)
  : Run :=
  {| log := lines;
     outcome := Error (formatGraphqlError C (context r) "Invalid Token")
                      StatusForbidden |}.

Definition serveNext (r : Request) : Run :=
  {| log := []; outcome := ServeNext r |}.

Definition attach (r : Request) (user : option models.User) (authType : string)
  : Run :=
  let ctx := WithValue (context r) userCtxKey
               (ptr_UserContextValue
                  (Some {| User := user; AuthType := authType |})) in
  serveNext (WithContext r ctx).

Definition AuthMiddleware (C : Collaborators) (r : Request) : Run :=
  let header := Header_Get (header r) "Authorization" in
  if String.eqb header EmptyString then serveNext r
  else if HasPrefix header "resetpassword:" then
    let token := slice_from (String.length "resetpassword:") header in
    match ParseToken C token with
    | Err _ => invalidToken C r []
    | Ok email =>
        match GetResetPasswordToken C email with
        | Err _ => invalidToken C r []
        | Ok _ =>
            match GetUser C None (Some email) with
            | Err _ => serveNext r
            | Ok user => attach r user "token"
            end
        end
    end
  else if HasPrefix header "service:" then
    if negb (Contains (GetServiceTokens C) header) then
      invalidToken C r
        [("INVALID TOKEN ATTEMPT 1 " ++ header ++ ":" ++ GetIPAddress C r)%string]
    else
      match GetServiceTokenUser C header with
      | Err _ =>
          invalidToken C r
            [("INVALID TOKEN ATTEMPT " ++ header ++ ":" ++ GetIPAddress C r)%string]
      | Ok userID =>
          match uuid_Parse C userID with
          | Err _ => invalidToken C r []
          | Ok userUUID =>
              match GetUser C (Some userUUID) None with
              | Err _ => serveNext r
              | Ok user => attach r user "token"
              end
          end
      end
  else
    let tokenStr := header in
    match ParseToken C tokenStr with
    | Err _ => invalidToken C r []
    | Ok email =>
        match GetUser C None (Some email) with
        | Err _ => serveNext r
        | Ok user => attach r user "jwt"
        end
    end.

End auth.

(** ** The queues built by the server entry point *)

Module main.

(** A Go channel seen from its senders while no receiver is waiting:
    [make(chan A, n)] has room for [n] pending values, [make(chan A)] for
    none. *)
Record chan (A : Type) : Type := mkChan {
  cap : nat;
  pending : list A
}.
Arguments mkChan {A} cap pending.
Arguments cap {A} c.
Arguments pending {A} c.

Definition make (A : Type) (n : nat) : chan A := mkChan n [].

(** [c <- x]: [Some] with the value queued, [None] when the sender has to
    wait for a receiver. *)
Definition send {A} (c : chan A) (x : A) : option (chan A) :=
  if Nat.ltb (List.length (pending c)) (cap c)
  then Some (mkChan (cap c) (pending c ++ [x]))
  else None.

(** [<-c] from the buffer, oldest value first. *)
Definition recv {A} (c : chan A) : option (A * chan A) :=
  match pending c with
  | [] => None
  | x :: rest => Some (x, mkChan (cap c) rest)
  end.

Fixpoint send_all {A} (c : chan A) (xs : list A) : option (chan A) :=
  match xs with
  | [] => Some c
  | x :: rest =>
      match send c x with
      | Some c' => send_all c' rest
      | None => None
      end
  end.

Section runServer.

(* repository.WorkMessage and serializableModels.ClientMessage *)
Variables WorkMessage ClientMessage : Type.

Record Queues : Type := mkQueues {
  statsChan : chan WorkMessage;
  blockAwardedChan : chan ClientMessage
}.

(** The two [make] calls of [runServer]. *)
Definition runServer : Queues :=
  {| statsChan := make WorkMessage 100;
     blockAwardedChan := make ClientMessage 0 |}.

End runServer.

Arguments statsChan {WorkMessage ClientMessage} q.
Arguments blockAwardedChan {WorkMessage ClientMessage} q.

End main.

(** ** Sample collaborators and requests *)

Module sample.

Import models middleware http auth.

Definition alice : models.User :=
  {| EmailVerified := true; CanRequestWork := true; Type_ := REQUESTER |}.

(** An unverified provider that may not request work. *)
Definition bob : models.User :=
  {| EmailVerified := false; CanRequestWork := false; Type_ := PROVIDER |}.

(** Modelled from the spec: gqlgen's [graphql.ErrorResponse] and
    [encoding/json] are outside the sources; section 4.1 shapes the body
    as one error envelope, [{"errors":[{"message":m}]}], written here for
    a message [m] that needs no JSON escaping. *)
Definition envelope (m : string) : string :=
  "{" ++ dquote ++ "errors" ++ dquote ++ ":[{" ++ dquote ++ "message"
  ++ dquote ++ ":" ++ dquote ++ m ++ dquote ++ "}]}".

Definition parse (tok : string) : result string :=
  if String.eqb tok "alice.jwt" then Ok "alice@example.com"
  else if String.eqb tok "ghost.jwt" then Ok "ghost@example.com"
  else Err "token is malformed".

Definition resetTokens (email : string) : result string :=
  if String.eqb email "alice@example.com" then Ok "alice.jwt"
  else if String.eqb email "ghost@example.com" then Ok "ghost.jwt"
  else Err "redis: nil".

Definition serviceTokens : list string :=
  ["service:alice"; "service:ghost"; "service:unbound"; "service:badid"].

Definition serviceTokenUser (tok : string) : result string :=
  if String.eqb tok "service:alice"
  then Ok "00000000-0000-0000-0000-000000000001"
  else if String.eqb tok "service:ghost"
  then Ok "00000000-0000-0000-0000-000000000002"
  else if String.eqb tok "service:badid" then Ok "not-a-uuid"
  else Err "redis: nil".

Definition parseUUID (s : string) : result UUID :=
  if String.eqb s "00000000-0000-0000-0000-000000000001" then Ok 1%N
  else if String.eqb s "00000000-0000-0000-0000-000000000002" then Ok 2%N
  else Err "invalid UUID format".

Definition users (id : option UUID) (email : option string)
  : result (option models.User) :=
  match id, email with
  | Some i, _ =>
      if N.eqb i 1 then Ok (Some alice) else Err "record not found"
  | None, Some e =>
      if String.eqb e "alice@example.com" then Ok (Some alice)
      else Err "record not found"
  | None, None => Err "id or email must be provided"
  end.

Definition collaborators : Collaborators :=
  {| ParseToken := parse;
     GetResetPasswordToken := resetTokens;
     GetServiceTokens := serviceTokens;
     GetServiceTokenUser := serviceTokenUser;
     uuid_Parse := parseUUID;
     GetUser := users;
     GetIPAddress := RemoteAddr;
     MarshalErrorResponse := fun _ m => Ok (envelope m) |}.

(** The same collaborators with every store empty and every parser
    refusing. *)
Definition offline : Collaborators :=
  {| ParseToken := fun _ => Err "unavailable";
     GetResetPasswordToken := fun _ => Err "unavailable";
     GetServiceTokens := [];
     GetServiceTokenUser := fun _ => Err "unavailable";
     uuid_Parse := fun _ => Err "unavailable";
     GetUser := fun _ _ => Err "unavailable";
     GetIPAddress := fun _ => EmptyString;
     MarshalErrorResponse := fun _ _ => Err "unavailable" |}.

Definition request (authorization : string) : Request :=
  {| header := [("Authorization", [authorization])];
     context := Background;
     RemoteAddr := "203.0.113.7" |}.

Definition anonymous : Request :=
  {| header := [("Accept", ["application/json"])];
     context := Background;
     RemoteAddr := "203.0.113.7" |}.

Definition authContext (u : models.User) (authType : string) : Context :=
  WithValue Background userCtxKey
    (ptr_UserContextValue (Some {| User := Some u; AuthType := authType |})).

Definition strayValue : Context :=
  WithValue Background userCtxKey (string_any "alice").

End sample.

(** ** The command line *)

Module command.

(** What [init], [usage] and [main] do, in order: text printed with
    [fmt.Printf], a shell command run with [script.Exec(...).Stdout()], the
    call of [runServer], a call of [flag.Set], a call of
    [flag.PrintDefaults], and the [os.Exit] that ends the process. *)
Inductive effect : Type :=
| Printf (out : string)
| Exec (cmd : string)
| RunServer
| Exit (code : nat)
| FlagSet (name value : string)
| PrintDefaults.

Definition newline : string := String "010"%char EmptyString.

(** The body of [main], as a function of [os.Args]; [init], below, has run
    before it is entered. *)
Definition main (Args : list string) : list effect :=
  if Nat.ltb (List.length Args) 2 then
    [Printf "Error: must specify at least 1 argument"; Exit 1]
  else
    let arg := nth 1 Args EmptyString in
    if String.eqb arg "gqlgen" then
      [Printf "🤖 Running graphql generate...";
       Exec "bash -c 'gqlgen generate --verbose'"]
    else if String.eqb arg "db:reset" then
      [Printf "💥 Nuking database...";
       Exec "bash -c './scripts/reset_db.sh'"]
    else if String.eqb arg "server" then
      [RunServer]
    else
      [Printf ("Invalid command " ++ arg ++ newline); Exit 1].

(** [usage] *)
Definition usage : list effect := [PrintDefaults; Exit 2].

(** [init], which runs before [main] on the same, non-empty [os.Args].
    [parses] stands for [flag.Parse] on the arguments after the program
    name, with whatever flags the linked packages define: [true] when it
    returns, [false] when it refuses a flag or is asked for help, in which
    case it calls [flag.Usage], which [init] has set to [usage].  The
    boolean tells whether the process goes on to [main]. *)
Definition init (parses : list string -> bool) (Args : list string)
  : list effect * bool :=
  let sets := [FlagSet "logtostderr" "true";
               FlagSet "stderrthreshold" "INFO";
               FlagSet "v" "2"] in
  if parses (tl Args) then (sets, true) else (sets ++ usage, false).

(** The process from its start: [init], then [main] unless [init] has
    ended it. *)
Definition process (parses : list string -> bool) (Args : list string)
  : list effect :=
  let (effects, entered) := init parses Args in
  if entered then effects ++ main Args else effects.

Definition commands : list string := ["gqlgen"; "db:reset"; "server"].

End command.

(** ** Draining a queue *)

Module queue.

Import main.

(** [n] receives in a row; stops early on an empty buffer. *)
Fixpoint recv_n {A} (n : nat) (c : chan A) : list A * chan A :=
  match n with
  | 0 => ([], c)
  | S n' =>
      match recv c with
      | None => ([], c)
      | Some (x, c') => let (xs, c'') := recv_n n' c' in (x :: xs, c'')
      end
  end.

End queue.

(** ** The Redis manager *)

Module database.

(** [time.Duration], in nanoseconds. *)
Definition Duration : Type := N.
Definition Minute : Duration := 60000000000%N.

(** The string commands of the go-redis client the manager wraps, against
    a server in state [S]: [Del], [Get] and [Set] followed by [Result()] or
    [Err()]. *)
Record Client (S : Type) : Type := mkClient {
  client_Del : string -> S -> result N * S;
  client_Get : string -> S -> result string;
  client_Set : string -> string -> Duration -> S -> result unit * S
}.
Arguments client_Del {S} c key s.
Arguments client_Get {S} c key s.
Arguments client_Set {S} c key value expiry s.

(** What the properties below ask of the server: a key holds the value
    last set until it is deleted, and commands on one key leave the others
    alone. *)
Record KeyValueStore {S} (c : Client S) : Prop := mkKeyValueStore {
  get_after_set : forall k v d s s',
    client_Set c k v d s = (Ok tt, s') -> client_Get c k s' = Ok v;
  get_after_set_other : forall k k' v d s res s',
    k' <> k -> client_Set c k v d s = (res, s') ->
    client_Get c k' s' = client_Get c k' s;
  get_after_del : forall k s n s',
    client_Del c k s = (Ok n, s') -> exists e, client_Get c k s' = Err e;
  get_after_del_other : forall k k' s res s',
    k' <> k -> client_Del c k s = (res, s') ->
    client_Get c k' s' = client_Get c k' s
}.

(** [type redisManager struct { Client *redis.Client }] *)
Record redisManager (S : Type) : Type := mkRedisManager {
  Client_ : Client S
}.
Arguments Client_ {S} r.

Section Manager.

Context {S : Type}.
Variable r : redisManager S.

Definition Del (key : string) (s : S) : result N * S :=
  client_Del (Client_ r) key s.

Definition Get (key : string) (s : S) : result string :=
  client_Get (Client_ r) key s.

Definition Set_ (key value : string) (expiry : Duration) (s : S)
  : result unit * S :=
  client_Set (Client_ r) key value expiry s.

(** [fmt.Sprintf("emailconfirmation:%s", email)] *)
Definition confirmationKey (email : string) : string :=
  "emailconfirmation:" ++ email.

(* config.EMAIL_CONFIRMATION_TOKEN_VALID_MINUTES *)
Variable EMAIL_CONFIRMATION_TOKEN_VALID_MINUTES : N.

Definition SetConfirmationToken (email token : string) (s : S)
  : result unit * S :=
  Set_ (confirmationKey email) token
       (EMAIL_CONFIRMATION_TOKEN_VALID_MINUTES * Minute)%N s.

Definition GetUserIDForConfirmationToken (email : string) (s : S)
  : result string :=
  Get (confirmationKey email) s.

Definition DeleteConfirmationToken (email : string) (s : S) : result N * S :=
  Del (confirmationKey email) s.

End Manager.

(** A server held in memory: the string keys and their values, newest
    first. *)
Definition memory : Type := list (string * string).

Fixpoint lookup (key : string) (s : memory) : result string :=
  match s with
  | [] => Err "redis: nil"
  | (k, v) :: rest => if String.eqb k key then Ok v else lookup key rest
  end.

Definition remove (key : string) (s : memory) : memory :=
  filter (fun kv => negb (String.eqb (fst kv) key)) s.

Definition memoryClient : Client memory :=
  {| client_Del := fun key s =>
       (Ok (match lookup key s with Ok _ => 1 | Err _ => 0 end)%N,
        remove key s);
     client_Get := lookup;
     client_Set := fun key value _ s => (Ok tt, (key, value) :: remove key s) |}.

End database.

(** * Properties *)

Import models middleware http auth.

(** ** The authorization predicates *)

Section Predicates.

Variable ctx : Context.

Ltac run_guard :=
  unfold AuthorizedUser, AuthorizedProvider, AuthorizedRequester,
    AuthorizedServiceToken, AuthorizedChangePassword, guard, or_else,
    user_nil, authtype_ne, user_flag, user_type_ne, not_, neq_string,
    neq_type;
  destruct (forContext ctx) as [[[[ev crw ty]|] a]|]; cbn;
  repeat match goal with
    | |- context [String.eqb ?x ?y] => destruct (String.eqb x y); cbn
    | b : bool |- _ => destruct b; cbn
    | t : UserType |- _ => destruct t; cbn
    end;
  try reflexivity.

(** Each predicate is a total function of the looked-up context value:
    the short-circuit disjunction keeps every dereference behind its nil
    test, so no run panics. *)
Lemma AuthorizedUser_eq :
  AuthorizedUser ctx =
  Val match forContext ctx with
      | Some v =>
          match User v with
          | Some _ => if String.eqb (AuthType v) "jwt" then Some v else None
          | None => None
          end
      | None => None
      end.
Proof. run_guard. Qed.

Lemma AuthorizedProvider_eq :
  AuthorizedProvider ctx =
  Val match forContext ctx with
      | Some v =>
          match User v with
          | Some u =>
              if String.eqb (AuthType v) "jwt" && EmailVerified u
                 && UserType_eqb (Type_ u) PROVIDER
              then Some v else None
          | None => None
          end
      | None => None
      end.
Proof. run_guard. Qed.

Lemma AuthorizedRequester_eq :
  AuthorizedRequester ctx =
  Val match forContext ctx with
      | Some v =>
          match User v with
          | Some u =>
              if String.eqb (AuthType v) "jwt" && EmailVerified u
                 && CanRequestWork u && UserType_eqb (Type_ u) REQUESTER
              then Some v else None
          | None => None
          end
      | None => None
      end.
Proof. run_guard. Qed.

Lemma AuthorizedServiceToken_eq :
  AuthorizedServiceToken ctx =
  Val match forContext ctx with
      | Some v =>
          match User v with
          | Some u =>
              if String.eqb (AuthType v) "token" && EmailVerified u
                 && CanRequestWork u && UserType_eqb (Type_ u) REQUESTER
              then Some v else None
          | None => None
          end
      | None => None
      end.
Proof. run_guard. Qed.

Lemma AuthorizedChangePassword_eq :
  AuthorizedChangePassword ctx =
  Val match forContext ctx with
      | Some v =>
          match User v with
          | Some _ => if String.eqb (AuthType v) "token" then Some v else None
          | None => None
          end
      | None => None
      end.
Proof. run_guard. Qed.

End Predicates.

Lemma forContext_absent (ctx : Context) :
  (forall v, Value ctx userCtxKey <> ptr_UserContextValue (Some v)) ->
  forContext ctx = None.
Proof.
  intros H. unfold forContext.
  destruct (Value ctx userCtxKey) as [|[v|]| | |]; try reflexivity.
  now destruct (H v).
Qed.

Lemma forContext_WithValue (parent : Context) (p : option UserContextValue) :
  forContext (WithValue parent userCtxKey (ptr_UserContextValue p)) = p.
Proof. reflexivity. Qed.

(** ** Strings and scheme dispatch *)

Lemma prefix_cons (a b : ascii) (p s : string) :
  String.prefix (String a p) (String b s) =
  if ascii_dec a b then String.prefix p s else false.
Proof. reflexivity. Qed.

Lemma HasPrefix_split (s p : string) :
  HasPrefix s p = true -> s = (p ++ slice_from (String.length p) s)%string.
Proof.
  unfold HasPrefix, slice_from. revert s.
  induction p as [|c p IH]; intros s H.
  - cbn. rewrite Nat.sub_0_r.
    clear H. induction s as [|d s IHs]; cbn; [reflexivity|].
    now rewrite <- IHs.
  - destruct s as [|d s]; [discriminate|].
    rewrite prefix_cons in H.
    destruct (ascii_dec c d) as [->|]; [|discriminate].
    cbn. f_equal. now apply IH.
Qed.

Lemma service_dispatch (h : string) :
  HasPrefix h "service:" = true ->
  String.eqb h EmptyString = false /\ HasPrefix h "resetpassword:" = false.
Proof.
  unfold HasPrefix. destruct h as [|c h]; [discriminate|].
  rewrite !prefix_cons.
  destruct (ascii_dec "s" c) as [<-|]; [|discriminate].
  intros _. split; [reflexivity|].
  destruct (ascii_dec "r" "s"); [discriminate|reflexivity].
Qed.

Lemma resetpassword_dispatch (h : string) :
  HasPrefix h "resetpassword:" = true -> String.eqb h EmptyString = false.
Proof.
  unfold HasPrefix. destruct h as [|c h]; [discriminate|reflexivity].
Qed.

Lemma Contains_In (xs : list string) (x : string) :
  Contains xs x = true <-> In x xs.
Proof.
  unfold Contains. rewrite existsb_exists. split.
  - intros [y [Hy E]]. apply String.eqb_eq in E. now subst.
  - intros H. exists x. split; [assumption|apply String.eqb_refl].
Qed.

Lemma Contains_not_In (xs : list string) (x : string) :
  Contains xs x = false <-> ~ In x xs.
Proof.
  rewrite <- Contains_In. destruct (Contains xs x); split; intros H;
    try reflexivity; try discriminate; try (intros E; discriminate).
  now destruct H.
Qed.

(** ** The middleware, scheme by scheme *)

Section Middleware.

Variable C : Collaborators.
Variable r : Request.

Local Abbreviation h := (Header_Get (header r) "Authorization").

Lemma AuthMiddleware_anonymous :
  h = EmptyString -> AuthMiddleware C r = serveNext r.
Proof.
  intros E. unfold AuthMiddleware. cbv zeta. now rewrite E.
Qed.

Lemma AuthMiddleware_resetpassword :
  HasPrefix h "resetpassword:" = true ->
  AuthMiddleware C r =
  match ParseToken C (slice_from 14 h) with
  | Err _ => invalidToken C r []
  | Ok email =>
      match GetResetPasswordToken C email with
      | Err _ => invalidToken C r []
      | Ok _ =>
          match GetUser C None (Some email) with
          | Err _ => serveNext r
          | Ok user => attach r user "token"
          end
      end
  end.
Proof.
  intros H. pose proof (resetpassword_dispatch _ H) as E.
  unfold AuthMiddleware. cbv zeta.
  rewrite E, H. reflexivity.
Qed.

Lemma AuthMiddleware_service :
  HasPrefix h "service:" = true ->
  AuthMiddleware C r =
  if Contains (GetServiceTokens C) h then
    match GetServiceTokenUser C h with
    | Err _ =>
        invalidToken C r
          [("INVALID TOKEN ATTEMPT " ++ h ++ ":" ++ GetIPAddress C r)%string]
    | Ok userID =>
        match uuid_Parse C userID with
        | Err _ => invalidToken C r []
        | Ok userUUID =>
            match GetUser C (Some userUUID) None with
            | Err _ => serveNext r
            | Ok user => attach r user "token"
            end
        end
    end
  else
    invalidToken C r
      [("INVALID TOKEN ATTEMPT 1 " ++ h ++ ":" ++ GetIPAddress C r)%string].
Proof.
  intros H. destruct (service_dispatch _ H) as [E N].
  unfold AuthMiddleware. cbv zeta.
  rewrite E, N, H.
  destruct (Contains (GetServiceTokens C) _); reflexivity.
Qed.

Lemma AuthMiddleware_bearer :
  h <> EmptyString ->
  HasPrefix h "resetpassword:" = false ->
  HasPrefix h "service:" = false ->
  AuthMiddleware C r =
  match ParseToken C h with
  | Err _ => invalidToken C r []
  | Ok email =>
      match GetUser C None (Some email) with
      | Err _ => serveNext r
      | Ok user => attach r user "jwt"
      end
  end.
Proof.
  intros E R S. apply String.eqb_neq in E.
  unfold AuthMiddleware. cbv zeta.
  rewrite E, R, S. reflexivity.
Qed.

End Middleware.

(** ** Shared facts about the predicates *)

Lemma absent_denied (ctx : Context) :
  forContext ctx = None ->
  AuthorizedUser ctx = Val None /\
  AuthorizedProvider ctx = Val None /\
  AuthorizedRequester ctx = Val None /\
  AuthorizedServiceToken ctx = Val None /\
  AuthorizedChangePassword ctx = Val None.
Proof.
  intros H.
  rewrite AuthorizedUser_eq, AuthorizedProvider_eq, AuthorizedRequester_eq,
    AuthorizedServiceToken_eq, AuthorizedChangePassword_eq, H.
  repeat split.
Qed.

Lemma token_denied (ctx : Context) (v : UserContextValue) :
  forContext ctx = Some v ->
  AuthType v = "token" ->
  AuthorizedUser ctx = Val None /\
  AuthorizedProvider ctx = Val None /\
  AuthorizedRequester ctx = Val None.
Proof.
  intros H T.
  rewrite AuthorizedUser_eq, AuthorizedProvider_eq, AuthorizedRequester_eq,
    H, T.
  destruct (User v); repeat split.
Qed.

Lemma predicates_never_panic (ctx : Context) :
  forall P, In P [AuthorizedUser; AuthorizedProvider; AuthorizedRequester;
                  AuthorizedServiceToken; AuthorizedChangePassword] ->
  exists res, P ctx = Val res.
Proof.
  intros P [<-|[<-|[<-|[<-|[<-|[]]]]]]; eexists.
  - apply AuthorizedUser_eq.
  - apply AuthorizedProvider_eq.
  - apply AuthorizedRequester_eq.
  - apply AuthorizedServiceToken_eq.
  - apply AuthorizedChangePassword_eq.
Qed.

(** What the two token-class schemes hand to the next handler: the request
    untouched, or the request with a ["token"] context value attached. *)
Lemma token_schemes_next (C : Collaborators) (r r' : Request) :
  let h := Header_Get (header r) "Authorization" in
  HasPrefix h "resetpassword:" = true \/ HasPrefix h "service:" = true ->
  outcome (AuthMiddleware C r) = ServeNext r' ->
  r' = r \/
  exists user,
    forContext (context r') = Some {| User := user; AuthType := "token" |}.
Proof.
  intros h [H|H] E.
  - rewrite (AuthMiddleware_resetpassword C r H) in E.
    destruct (ParseToken C _) as [email|]; [|discriminate].
    destruct (GetResetPasswordToken C email); [|discriminate].
    destruct (GetUser C None (Some email)) as [user|]; cbn in E;
      injection E as <-; [right; now exists user|now left].
  - rewrite (AuthMiddleware_service C r H) in E.
    destruct (Contains _ _); [|discriminate].
    destruct (GetServiceTokenUser C _) as [userID|]; [|discriminate].
    destruct (uuid_Parse C userID) as [userUUID|]; [|discriminate].
    destruct (GetUser C (Some userUUID) None) as [user|]; cbn in E;
      injection E as <-; [right; now exists user|now left].
Qed.

(** The value a request carries after [attach]. *)
Lemma attached_context_value (r r' : Request) (user : option models.User)
  (t : string) :
  outcome (attach r user t) = ServeNext r' ->
  forContext (context r') = Some {| User := user; AuthType := t |}.
Proof. intros E. injection E as <-. reflexivity. Qed.

(** ** Claims *)

(** C1: a context value of AuthType ["token"] is denied by AuthorizedUser,
    AuthorizedProvider and AuthorizedRequester; in particular whatever the
    reset-password and service schemes of the middleware pass on, for a
    request that arrived without a context value, is denied by all three. *)
Theorem token_context_denied_where_jwt_required :
  (forall ctx v,
      forContext ctx = Some v ->
      AuthType v = "token" ->
      AuthorizedUser ctx = Val None /\
      AuthorizedProvider ctx = Val None /\
      AuthorizedRequester ctx = Val None)
  /\
  (forall C r r',
      HasPrefix (Header_Get (header r) "Authorization") "resetpassword:" = true
      \/ HasPrefix (Header_Get (header r) "Authorization") "service:" = true ->
      forContext (context r) = None ->
      outcome (AuthMiddleware C r) = ServeNext r' ->
      AuthorizedUser (context r') = Val None /\
      AuthorizedProvider (context r') = Val None /\
      AuthorizedRequester (context r') = Val None).
Proof.
  split; [exact token_denied|].
  intros C r r' S A E.
  destruct (token_schemes_next C r r' S E) as [->|[user F]].
  - destruct (absent_denied _ A) as (U & P & R & _). now repeat split.
  - now apply (token_denied _ _ F).
Qed.

Lemma token_context_denied_where_jwt_required_witness :
  (AuthorizedUser (sample.authContext sample.alice "token") = Val None /\
   AuthorizedProvider (sample.authContext sample.alice "token") = Val None /\
   AuthorizedRequester (sample.authContext sample.alice "token") = Val None)
  /\
  (outcome (AuthMiddleware sample.collaborators (sample.request "service:alice"))
   = ServeNext (WithContext (sample.request "service:alice")
                  (sample.authContext sample.alice "token")) /\
   AuthorizedUser (sample.authContext sample.alice "token") = Val None).
Proof.
  destruct token_context_denied_where_jwt_required as [G M].
  split.
  - apply (G (sample.authContext sample.alice "token")
             {| User := Some sample.alice; AuthType := "token" |});
      reflexivity.
  - split; [reflexivity|].
    apply (M sample.collaborators (sample.request "service:alice")
             (WithContext (sample.request "service:alice")
                (sample.authContext sample.alice "token")));
      [right; reflexivity | reflexivity | reflexivity].
Defined.

(** Every rejection is a 403 carrying the one body [formatGraphqlError]
    computes, and that body does not depend on the message it is given. *)
Lemma formatGraphqlError_msg_unused (C : Collaborators) (ctx : Context)
  (m1 m2 : string) :
  formatGraphqlError C ctx m1 = formatGraphqlError C ctx m2.
Proof. reflexivity. Qed.

Lemma rejections_share_one_body (C : Collaborators) (r : Request)
  (body : string) (code : nat) :
  outcome (AuthMiddleware C r) = Error body code ->
  code = 403 /\
  body = match MarshalErrorResponse C (context r) "Invalid token" with
         | Ok marshalled => marshalled
         | Err _ => unknownError
         end.
Proof.
  unfold AuthMiddleware, invalidToken, attach, serveNext, formatGraphqlError.
  cbv zeta. intros E.
  repeat match type of E with
    | context [if ?b then _ else _] => destruct b
    | context [match ?x with Ok _ => _ | Err _ => _ end] =>
        lazymatch x with
        | MarshalErrorResponse _ _ _ => fail
        | _ => destruct x
        end
    end;
  cbn in E; try discriminate E;
  injection E as <- <-; split; reflexivity.
Qed.

(** C2: at a malformed reset-password token, an unlisted service token and
    a malformed bearer token the middleware answers 403 with one and the
    same envelope, whose message is [Invalid token]: the [msg] argument
    [Invalid Token] of the call sites is dropped by [formatGraphqlError],
    so the body differs from the envelope of [Invalid Token]. *)
Theorem invalid_token_body_has_lowercase_message :
  AuthMiddleware sample.collaborators (sample.request "resetpassword:garbage")
  = {| log := []; outcome := Error (sample.envelope "Invalid token") 403 |}
  /\
  AuthMiddleware sample.collaborators (sample.request "service:unlisted")
  = {| log := ["INVALID TOKEN ATTEMPT 1 service:unlisted:203.0.113.7"];
       outcome := Error (sample.envelope "Invalid token") 403 |}
  /\
  AuthMiddleware sample.collaborators (sample.request "garbage")
  = {| log := []; outcome := Error (sample.envelope "Invalid token") 403 |}
  /\
  sample.envelope "Invalid token" <> sample.envelope "Invalid Token".
Proof.
  repeat split; try reflexivity. discriminate.
Qed.

(** C3: AuthorizedServiceToken denies a PROVIDER identity whatever the
    AuthType, denies every ["jwt"] context value whatever the identity, and
    returns the context value exactly when AuthType is ["token"] and the
    identity is present with EmailVerified, CanRequestWork and
    Type = REQUESTER. *)
Theorem AuthorizedServiceToken_spec (ctx : Context) :
  (forall v u,
      forContext ctx = Some v -> User v = Some u -> Type_ u = PROVIDER ->
      AuthorizedServiceToken ctx = Val None)
  /\
  (forall v,
      forContext ctx = Some v -> AuthType v = "jwt" ->
      AuthorizedServiceToken ctx = Val None)
  /\
  (forall v,
      AuthorizedServiceToken ctx = Val (Some v) <->
      forContext ctx = Some v /\ AuthType v = "token" /\
      exists u, User v = Some u /\ EmailVerified u = true /\
                CanRequestWork u = true /\ Type_ u = REQUESTER).
Proof.
  rewrite AuthorizedServiceToken_eq. split; [|split].
  - intros v u -> -> ->. now rewrite !andb_false_r.
  - intros v -> ->. now destruct (User v).
  - intros v. split.
    + destruct (forContext ctx) as [w|]; [|discriminate].
      destruct (User w) as [u|] eqn:U; [|discriminate].
      destruct (String.eqb (AuthType w) "token") eqn:T; [|discriminate].
      destruct (EmailVerified u) eqn:EV; [|discriminate].
      destruct (CanRequestWork u) eqn:CR; [|discriminate].
      destruct (Type_ u) eqn:TY; [discriminate|]. cbn.
      intros E. injection E as <-.
      apply String.eqb_eq in T. repeat split; try assumption.
      exists u. now repeat split.
    + intros (-> & T & u & -> & -> & -> & ->).
      now rewrite T.
Qed.

Lemma AuthorizedServiceToken_spec_witness :
  AuthorizedServiceToken (sample.authContext sample.bob "token") = Val None
  /\
  AuthorizedServiceToken (sample.authContext sample.alice "jwt") = Val None
  /\
  AuthorizedServiceToken (sample.authContext sample.alice "token")
  = Val (Some {| User := Some sample.alice; AuthType := "token" |}).
Proof.
  split; [|split].
  - apply (proj1 (AuthorizedServiceToken_spec
                    (sample.authContext sample.bob "token"))
             {| User := Some sample.bob; AuthType := "token" |} sample.bob);
      reflexivity.
  - apply (proj1 (proj2 (AuthorizedServiceToken_spec
                           (sample.authContext sample.alice "jwt")))
             {| User := Some sample.alice; AuthType := "jwt" |});
      reflexivity.
  - apply (proj2 (proj2 (AuthorizedServiceToken_spec
                           (sample.authContext sample.alice "token")))).
    repeat split. exists sample.alice. now repeat split.
Defined.

(** C4: AuthorizedChangePassword returns the context value whenever its
    AuthType is ["token"] and the identity is present, whatever the
    identity's EmailVerified, CanRequestWork and Type, and denies every
    ["jwt"] context value. *)
Theorem AuthorizedChangePassword_spec (ctx : Context) (v : UserContextValue) :
  forContext ctx = Some v ->
  (forall ev crw ty,
      AuthType v = "token" ->
      User v = Some {| EmailVerified := ev; CanRequestWork := crw;
                       Type_ := ty |} ->
      AuthorizedChangePassword ctx = Val (Some v))
  /\
  (AuthType v = "jwt" -> AuthorizedChangePassword ctx = Val None).
Proof.
  intros H. rewrite AuthorizedChangePassword_eq, H. split.
  - intros ev crw ty -> ->. reflexivity.
  - intros ->. now destruct (User v).
Qed.

Lemma AuthorizedChangePassword_spec_witness :
  AuthorizedChangePassword (sample.authContext sample.bob "token")
  = Val (Some {| User := Some sample.bob; AuthType := "token" |})
  /\
  AuthorizedChangePassword (sample.authContext sample.alice "jwt") = Val None.
Proof.
  split.
  - apply (proj1 (AuthorizedChangePassword_spec
                    (sample.authContext sample.bob "token")
                    {| User := Some sample.bob; AuthType := "token" |}
                    eq_refl) false false PROVIDER);
      reflexivity.
  - apply (proj2 (AuthorizedChangePassword_spec
                    (sample.authContext sample.alice "jwt")
                    {| User := Some sample.alice; AuthType := "jwt" |}
                    eq_refl));
      reflexivity.
Defined.

(** C5: for a header that starts with [service:], the whole header value
    has to be an element of the configured service tokens; otherwise the
    request is rejected with 403 and one line naming the header and the
    caller's IP address is logged.  For a listed token the bound id is
    looked up under the whole header value; a failed lookup and an id that
    does not parse as a UUID are rejected with 403 too, and only a parsed
    id reaches the identity store. *)
Theorem service_scheme (C : Collaborators) (r : Request) :
  let h := Header_Get (header r) "Authorization" in
  HasPrefix h "service:" = true ->
  (~ In h (GetServiceTokens C) ->
   AuthMiddleware C r =
   {| log := [("INVALID TOKEN ATTEMPT 1 " ++ h ++ ":" ++ GetIPAddress C r)%string];
      outcome := Error (formatGraphqlError C (context r) "Invalid Token") 403 |})
  /\
  (In h (GetServiceTokens C) ->
   (forall e,
       GetServiceTokenUser C h = Err e ->
       outcome (AuthMiddleware C r) =
       Error (formatGraphqlError C (context r) "Invalid Token") 403)
   /\
   (forall userID e,
       GetServiceTokenUser C h = Ok userID ->
       uuid_Parse C userID = Err e ->
       outcome (AuthMiddleware C r) =
       Error (formatGraphqlError C (context r) "Invalid Token") 403)
   /\
   (forall userID userUUID,
       GetServiceTokenUser C h = Ok userID ->
       uuid_Parse C userID = Ok userUUID ->
       AuthMiddleware C r =
       match GetUser C (Some userUUID) None with
       | Err _ => serveNext r
       | Ok user => attach r user "token"
       end)).
Proof.
  intros h H. rewrite (AuthMiddleware_service C r H). fold h. split.
  - intros N. apply Contains_not_In in N. now rewrite N.
  - intros I. apply Contains_In in I. rewrite I. split; [|split].
    + now intros e ->.
    + now intros userID e -> ->.
    + now intros userID userUUID -> ->.
Qed.

Lemma service_scheme_witness :
  AuthMiddleware sample.collaborators (sample.request "service:unlisted")
  = {| log := ["INVALID TOKEN ATTEMPT 1 service:unlisted:203.0.113.7"];
       outcome := Error (sample.envelope "Invalid token") 403 |}
  /\
  outcome (AuthMiddleware sample.collaborators (sample.request "service:unbound"))
  = Error (sample.envelope "Invalid token") 403
  /\
  outcome (AuthMiddleware sample.collaborators (sample.request "service:badid"))
  = Error (sample.envelope "Invalid token") 403
  /\
  AuthMiddleware sample.collaborators (sample.request "service:alice")
  = attach (sample.request "service:alice") (Some sample.alice) "token".
Proof.
  assert (L : forall t, In t sample.serviceTokens ->
                        In t (GetServiceTokens sample.collaborators))
    by (intros t I; exact I).
  split; [|split; [|split]].
  - apply (proj1 (service_scheme sample.collaborators
                    (sample.request "service:unlisted") eq_refl)).
    cbn. intros [E|[E|[E|[E|[]]]]]; discriminate E.
  - apply (proj1 (proj2 (service_scheme sample.collaborators
                           (sample.request "service:unbound") eq_refl)
                    (L _ (or_intror (or_intror (or_introl eq_refl)))))
             "redis: nil").
    reflexivity.
  - apply (proj1 (proj2 (proj2 (service_scheme sample.collaborators
                                  (sample.request "service:badid") eq_refl)
                           (L _ (or_intror (or_intror (or_intror
                                   (or_introl eq_refl)))))))
             "not-a-uuid" "invalid UUID format");
      reflexivity.
  - apply (proj2 (proj2 (proj2 (service_scheme sample.collaborators
                                  (sample.request "service:alice") eq_refl)
                           (L _ (or_introl eq_refl))))
             "00000000-0000-0000-0000-000000000001" 1%N);
      reflexivity.
Defined.

(** C6: for a header that starts with [resetpassword:], the rest of the
    header is decoded to an email; a failed decoding is rejected with 403;
    otherwise the email is looked up in the one-time-token store and a
    failed lookup is rejected with 403; the request reaches the next
    handler only when both steps succeeded.  With a resolved identity the
    context handed on yields, under [userCtxKey], a value with that
    identity and AuthType ["token"], whatever the context held before;
    otherwise the request is handed on as it arrived. *)
Theorem resetpassword_scheme (C : Collaborators) (r : Request) :
  let h := Header_Get (header r) "Authorization" in
  let token := slice_from 14 h in
  HasPrefix h "resetpassword:" = true ->
  h = ("resetpassword:" ++ token)%string
  /\
  (forall e,
      ParseToken C token = Err e ->
      AuthMiddleware C r =
      {| log := [];
         outcome := Error (formatGraphqlError C (context r) "Invalid Token") 403 |})
  /\
  (forall email e,
      ParseToken C token = Ok email ->
      GetResetPasswordToken C email = Err e ->
      AuthMiddleware C r =
      {| log := [];
         outcome := Error (formatGraphqlError C (context r) "Invalid Token") 403 |})
  /\
  (forall email stored user,
      ParseToken C token = Ok email ->
      GetResetPasswordToken C email = Ok stored ->
      GetUser C None (Some email) = Ok user ->
      exists r',
        AuthMiddleware C r = {| log := []; outcome := ServeNext r' |} /\
        r' = WithContext r
               (WithValue (context r) userCtxKey
                  (ptr_UserContextValue
                     (Some {| User := user; AuthType := "token" |}))) /\
        forContext (context r')
        = Some {| User := user; AuthType := "token" |} /\
        header r' = header r /\
        RemoteAddr r' = RemoteAddr r)
  /\
  (forall r',
      outcome (AuthMiddleware C r) = ServeNext r' ->
      exists email stored,
        ParseToken C token = Ok email /\
        GetResetPasswordToken C email = Ok stored /\
        (r' = r /\ (exists e, GetUser C None (Some email) = Err e)
         \/
         exists user,
           GetUser C None (Some email) = Ok user /\
           forContext (context r')
           = Some {| User := user; AuthType := "token" |})).
Proof.
  intros h token H. split; [exact (HasPrefix_split _ _ H)|].
  rewrite (AuthMiddleware_resetpassword C r H). fold h token.
  split; [|split; [|split]].
  - now intros e ->.
  - now intros email e -> ->.
  - intros email stored user -> -> ->.
    eexists. split; [reflexivity|]. now repeat split.
  - intros r'.
    destruct (ParseToken C token) as [email|] eqn:P; [|discriminate].
    destruct (GetResetPasswordToken C email) as [stored|] eqn:G;
      [|discriminate].
    intros E. exists email, stored. split; [reflexivity|].
    split; [exact G|].
    destruct (GetUser C None (Some email)) as [user|e].
    + right. exists user. split; [reflexivity|].
      exact (attached_context_value _ _ _ _ E).
    + left. injection E as <-. split; [reflexivity|]. now exists e.
Qed.

Lemma resetpassword_scheme_witness :
  outcome (AuthMiddleware sample.collaborators
             (sample.request "resetpassword:garbage"))
  = Error (sample.envelope "Invalid token") 403
  /\
  exists r',
    AuthMiddleware sample.collaborators
      (sample.request "resetpassword:alice.jwt")
    = {| log := []; outcome := ServeNext r' |} /\
    forContext (context r')
    = Some {| User := Some sample.alice; AuthType := "token" |}.
Proof.
  split.
  - apply (f_equal outcome
             (proj1 (proj2 (resetpassword_scheme sample.collaborators
                              (sample.request "resetpassword:garbage")
                              eq_refl))
                "token is malformed" eq_refl)).
  - destruct (proj1 (proj2 (proj2 (proj2
                (resetpassword_scheme sample.collaborators
                   (sample.request "resetpassword:alice.jwt") eq_refl))))
                "alice@example.com" "alice.jwt" (Some sample.alice)
                eq_refl eq_refl eq_refl)
      as (r' & A & _ & F & _).
    exists r'. split; [exact A|exact F].
Defined.

(** C7: under each of the three schemes, a credential that passes every
    check but whose identity the identity store does not return leaves the
    request as it arrived: it is handed to the next handler unchanged, so
    with no context value attached, nothing is logged and no 403 is sent. *)
Theorem unknown_identity_proceeds (C : Collaborators) (r : Request) :
  let h := Header_Get (header r) "Authorization" in
  (forall email stored e,
      HasPrefix h "resetpassword:" = true ->
      ParseToken C (slice_from 14 h) = Ok email ->
      GetResetPasswordToken C email = Ok stored ->
      GetUser C None (Some email) = Err e ->
      AuthMiddleware C r = {| log := []; outcome := ServeNext r |})
  /\
  (forall userID userUUID e,
      HasPrefix h "service:" = true ->
      In h (GetServiceTokens C) ->
      GetServiceTokenUser C h = Ok userID ->
      uuid_Parse C userID = Ok userUUID ->
      GetUser C (Some userUUID) None = Err e ->
      AuthMiddleware C r = {| log := []; outcome := ServeNext r |})
  /\
  (forall email e,
      h <> EmptyString ->
      HasPrefix h "resetpassword:" = false ->
      HasPrefix h "service:" = false ->
      ParseToken C h = Ok email ->
      GetUser C None (Some email) = Err e ->
      AuthMiddleware C r = {| log := []; outcome := ServeNext r |}).
Proof.
  intros h. split; [|split].
  - intros email stored e H P G U.
    rewrite (AuthMiddleware_resetpassword C r H). fold h.
    now rewrite P, G, U.
  - intros userID userUUID e H I G P U. apply Contains_In in I.
    rewrite (AuthMiddleware_service C r H). fold h.
    now rewrite I, G, P, U.
  - intros email e N R S P U.
    rewrite (AuthMiddleware_bearer C r N R S). fold h.
    now rewrite P, U.
Qed.

Lemma unknown_identity_proceeds_witness :
  AuthMiddleware sample.collaborators (sample.request "resetpassword:ghost.jwt")
  = {| log := []; outcome := ServeNext (sample.request "resetpassword:ghost.jwt") |}
  /\
  AuthMiddleware sample.collaborators (sample.request "service:ghost")
  = {| log := []; outcome := ServeNext (sample.request "service:ghost") |}
  /\
  AuthMiddleware sample.collaborators (sample.request "ghost.jwt")
  = {| log := []; outcome := ServeNext (sample.request "ghost.jwt") |}.
Proof.
  split; [|split].
  - apply (proj1 (unknown_identity_proceeds sample.collaborators
                    (sample.request "resetpassword:ghost.jwt"))
             "ghost@example.com" "ghost.jwt" "record not found");
      reflexivity.
  - apply (proj1 (proj2 (unknown_identity_proceeds sample.collaborators
                           (sample.request "service:ghost")))
             "00000000-0000-0000-0000-000000000002" 2%N "record not found");
      try reflexivity.
    right; left; reflexivity.
  - apply (proj2 (proj2 (unknown_identity_proceeds sample.collaborators
                           (sample.request "ghost.jwt")))
             "ghost@example.com" "record not found");
      try reflexivity.
    discriminate.
Defined.

(** C8: when the Authorization header is absent or empty the request is
    handed to the next handler as it arrived, nothing is logged and nothing
    is rejected, and no collaborator has a say: the run is the same under
    any two sets of collaborators. *)
Theorem absent_header_passes_through (C C' : Collaborators) (r : Request) :
  Header_Get (header r) "Authorization" = EmptyString ->
  AuthMiddleware C r = {| log := []; outcome := ServeNext r |} /\
  AuthMiddleware C r = AuthMiddleware C' r.
Proof.
  intros H. now rewrite !AuthMiddleware_anonymous.
Qed.

Lemma absent_header_passes_through_witness :
  AuthMiddleware sample.collaborators sample.anonymous
  = {| log := []; outcome := ServeNext sample.anonymous |} /\
  AuthMiddleware sample.collaborators sample.anonymous
  = AuthMiddleware sample.offline sample.anonymous.
Proof.
  apply (absent_header_passes_through sample.collaborators sample.offline
           sample.anonymous).
  reflexivity.
Defined.

(** ** The server's queues *)

Lemma send_all_room {A} (xs : list A) :
  forall c : main.chan A,
    length (main.pending c) + length xs <= main.cap c ->
    main.send_all c xs = Some (main.mkChan (main.cap c) (main.pending c ++ xs)).
Proof.
  induction xs as [|x xs IH]; intros c H; cbn in *.
  - rewrite app_nil_r. now destruct c.
  - unfold main.send.
    destruct (Nat.ltb_spec (length (main.pending c)) (main.cap c)) as [_|L];
      [|lia].
    rewrite IH; cbn; rewrite ?length_app; cbn; [|lia].
    now rewrite <- app_assoc.
Qed.

Lemma send_full {A} (c : main.chan A) (x : A) :
  main.cap c <= length (main.pending c) -> main.send c x = None.
Proof.
  intros H. unfold main.send.
  destruct (Nat.ltb_spec (length (main.pending c)) (main.cap c)); [lia|].
  reflexivity.
Qed.

(** C9: [runServer] builds the work-event queue with capacity exactly 100:
    up to 100 submissions are queued in order, a further one has to wait,
    and goes through once the consumer has taken one off; the block-awarded
    queue has capacity 0, so every send on it waits for its receiver. *)
Theorem runServer_queues (WorkMessage ClientMessage : Type) :
  let q := main.runServer WorkMessage ClientMessage in
  main.cap (main.statsChan q) = 100 /\
  main.pending (main.statsChan q) = [] /\
  (forall ws,
      length ws <= 100 ->
      main.send_all (main.statsChan q) ws = Some (main.mkChan 100 ws)) /\
  (forall ws w,
      length ws = 100 ->
      exists full,
        main.send_all (main.statsChan q) ws = Some full /\
        main.send full w = None /\
        exists first drained,
          main.recv full = Some (first, drained) /\
          hd_error ws = Some first /\
          main.send drained w <> None) /\
  main.cap (main.blockAwardedChan q) = 0 /\
  main.pending (main.blockAwardedChan q) = [] /\
  (forall m, main.send (main.blockAwardedChan q) m = None).
Proof.
  cbn. repeat (split; [reflexivity|]).
  assert (R : forall ws : list WorkMessage,
             length ws <= 100 ->
             main.send_all (main.make WorkMessage 100) ws
             = Some (main.mkChan 100 ws)).
  { intros ws H. now rewrite send_all_room by (cbn; lia). }
  split; [exact R|]. split.
  - intros ws w H. exists (main.mkChan 100 ws).
    split; [apply R; lia|].
    split; [apply send_full; cbn; lia|].
    destruct ws as [|first rest]; [discriminate|].
    exists first, (main.mkChan 100 rest). repeat split.
    unfold main.send. cbn [main.pending main.cap]. cbn in H.
    destruct (Nat.ltb_spec (length rest) 100); [discriminate|lia].
  - repeat split.
Qed.

Lemma runServer_queues_witness :
  main.send_all (main.statsChan (main.runServer nat bool)) (repeat 7 100)
  = Some (main.mkChan 100 (repeat 7 100)) /\
  exists full,
    main.send_all (main.statsChan (main.runServer nat bool)) (repeat 7 100)
    = Some full /\
    main.send full 8 = None.
Proof.
  destruct (runServer_queues nat bool) as (_ & _ & R & F & _).
  split.
  - apply R. rewrite repeat_length. lia.
  - destruct (F (repeat 7 100) 8 (repeat_length 7 100)) as (full & S & B & _).
    exists full. now split.
Defined.

(** C10: when the context holds no [*UserContextValue] under [userCtxKey]
    (nothing stored, a value of another type, or a nil pointer), the
    checked type assertion of [forContext] yields nil and each of the five
    predicates returns nil, as a value and not as a panic. *)
Theorem absent_context_value_denied (ctx : Context) :
  (forall v, Value ctx userCtxKey <> ptr_UserContextValue (Some v)) ->
  forContext ctx = None /\
  AuthorizedUser ctx = Val None /\
  AuthorizedProvider ctx = Val None /\
  AuthorizedRequester ctx = Val None /\
  AuthorizedServiceToken ctx = Val None /\
  AuthorizedChangePassword ctx = Val None.
Proof.
  intros H. apply forContext_absent in H.
  split; [exact H|now apply absent_denied].
Qed.

Lemma absent_context_value_denied_witness :
  (forContext Background = None /\
   AuthorizedUser Background = Val None /\
   AuthorizedProvider Background = Val None /\
   AuthorizedRequester Background = Val None /\
   AuthorizedServiceToken Background = Val None /\
   AuthorizedChangePassword Background = Val None)
  /\
  (forContext sample.strayValue = None /\
   AuthorizedUser sample.strayValue = Val None /\
   AuthorizedProvider sample.strayValue = Val None /\
   AuthorizedRequester sample.strayValue = Val None /\
   AuthorizedServiceToken sample.strayValue = Val None /\
   AuthorizedChangePassword sample.strayValue = Val None).
Proof.
  split.
  - apply (absent_context_value_denied Background).
    intros v. cbn. discriminate.
  - apply (absent_context_value_denied sample.strayValue).
    intros v. cbn. discriminate.
Defined.

(** * Further properties of the code *)

(** ** The predicates *)

(** X1: AuthorizedUser returns a context value exactly when that value is
    the one stored in the context, its AuthType is ["jwt"] and its identity
    is present; EmailVerified, CanRequestWork and Type play no part. *)
Theorem AuthorizedUser_spec (ctx : Context) (v : UserContextValue) :
  AuthorizedUser ctx = Val (Some v) <->
  forContext ctx = Some v /\ AuthType v = "jwt" /\ exists u, User v = Some u.
Proof.
  rewrite AuthorizedUser_eq. split.
  - destruct (forContext ctx) as [w|]; [|discriminate].
    destruct (User w) as [u|] eqn:U; [|discriminate].
    destruct (String.eqb (AuthType w) "jwt") eqn:T; [|discriminate].
    intros E. injection E as <-. apply String.eqb_eq in T.
    repeat split; try assumption. now exists u.
  - intros (-> & T & u & ->). now rewrite T.
Qed.

Lemma AuthorizedUser_spec_witness :
  AuthorizedUser (sample.authContext sample.bob "jwt")
  = Val (Some {| User := Some sample.bob; AuthType := "jwt" |}).
Proof.
  apply (proj2 (AuthorizedUser_spec (sample.authContext sample.bob "jwt")
                  {| User := Some sample.bob; AuthType := "jwt" |})).
  split; [reflexivity|]. split; [reflexivity|]. now exists sample.bob.
Defined.

(** X2: AuthorizedProvider returns a context value exactly when it is the
    stored one, its AuthType is ["jwt"] and its identity is present with
    EmailVerified and Type = PROVIDER; CanRequestWork plays no part. *)
Theorem AuthorizedProvider_spec (ctx : Context) (v : UserContextValue) :
  AuthorizedProvider ctx = Val (Some v) <->
  forContext ctx = Some v /\ AuthType v = "jwt" /\
  exists u, User v = Some u /\ EmailVerified u = true /\ Type_ u = PROVIDER.
Proof.
  rewrite AuthorizedProvider_eq. split.
  - destruct (forContext ctx) as [w|]; [|discriminate].
    destruct (User w) as [u|] eqn:U; [|discriminate].
    destruct (String.eqb (AuthType w) "jwt") eqn:T; [|discriminate].
    destruct (EmailVerified u) eqn:EV; [|discriminate].
    destruct (Type_ u) eqn:TY; [|discriminate]. cbn.
    intros E. injection E as <-. apply String.eqb_eq in T.
    repeat split; try assumption. exists u. now repeat split.
  - intros (-> & T & u & -> & -> & ->). now rewrite T.
Qed.

Lemma AuthorizedProvider_spec_witness :
  AuthorizedProvider
    (sample.authContext
       {| EmailVerified := true; CanRequestWork := false; Type_ := PROVIDER |}
       "jwt")
  = Val (Some {| User := Some {| EmailVerified := true;
                                 CanRequestWork := false;
                                 Type_ := PROVIDER |};
                 AuthType := "jwt" |}).
Proof.
  apply (proj2 (AuthorizedProvider_spec _ _)).
  split; [reflexivity|]. split; [reflexivity|].
  eexists. split; [reflexivity|]. split; reflexivity.
Defined.

(** X3: AuthorizedRequester returns a context value exactly when it is the
    stored one, its AuthType is ["jwt"] and its identity is present with
    EmailVerified, CanRequestWork and Type = REQUESTER. *)
Theorem AuthorizedRequester_spec (ctx : Context) (v : UserContextValue) :
  AuthorizedRequester ctx = Val (Some v) <->
  forContext ctx = Some v /\ AuthType v = "jwt" /\
  exists u, User v = Some u /\ EmailVerified u = true /\
            CanRequestWork u = true /\ Type_ u = REQUESTER.
Proof.
  rewrite AuthorizedRequester_eq. split.
  - destruct (forContext ctx) as [w|]; [|discriminate].
    destruct (User w) as [u|] eqn:U; [|discriminate].
    destruct (String.eqb (AuthType w) "jwt") eqn:T; [|discriminate].
    destruct (EmailVerified u) eqn:EV; [|discriminate].
    destruct (CanRequestWork u) eqn:CR; [|discriminate].
    destruct (Type_ u) eqn:TY; [discriminate|]. cbn.
    intros E. injection E as <-. apply String.eqb_eq in T.
    repeat split; try assumption. exists u. now repeat split.
  - intros (-> & T & u & -> & -> & -> & ->). now rewrite T.
Qed.

Lemma AuthorizedRequester_spec_witness :
  AuthorizedRequester (sample.authContext sample.alice "jwt")
  = Val (Some {| User := Some sample.alice; AuthType := "jwt" |}).
Proof.
  apply (proj2 (AuthorizedRequester_spec _ _)).
  split; [reflexivity|]. split; [reflexivity|].
  exists sample.alice. split; [reflexivity|]. now repeat split.
Defined.

(** X4: whatever AuthorizedProvider or AuthorizedRequester accepts,
    AuthorizedUser accepts too, and whatever AuthorizedServiceToken accepts,
    AuthorizedChangePassword accepts too, each with the same value. *)
Theorem stricter_predicate_implies_weaker (ctx : Context) (v : UserContextValue) :
  (AuthorizedProvider ctx = Val (Some v) -> AuthorizedUser ctx = Val (Some v))
  /\
  (AuthorizedRequester ctx = Val (Some v) -> AuthorizedUser ctx = Val (Some v))
  /\
  (AuthorizedServiceToken ctx = Val (Some v) ->
   AuthorizedChangePassword ctx = Val (Some v)).
Proof.
  rewrite AuthorizedUser_eq, AuthorizedProvider_eq, AuthorizedRequester_eq,
    AuthorizedServiceToken_eq, AuthorizedChangePassword_eq.
  destruct (forContext ctx) as [w|]; [|repeat split; discriminate].
  destruct (User w) as [u|]; [|repeat split; discriminate].
  destruct (String.eqb (AuthType w) "jwt"), (String.eqb (AuthType w) "token");
    cbn; repeat split; try discriminate; try (intros E; exact eq_refl);
    intros E;
    match type of E with
    | Val (if ?b then _ else _) = _ => destruct b; [exact E|discriminate E]
    end.
Qed.

Lemma stricter_predicate_implies_weaker_witness :
  AuthorizedUser (sample.authContext sample.alice "jwt")
  = Val (Some {| User := Some sample.alice; AuthType := "jwt" |})
  /\
  AuthorizedChangePassword (sample.authContext sample.alice "token")
  = Val (Some {| User := Some sample.alice; AuthType := "token" |}).
Proof.
  split.
  - apply (proj1 (proj2 (stricter_predicate_implies_weaker _ _))).
    reflexivity.
  - apply (proj2 (proj2 (stricter_predicate_implies_weaker _ _))).
    reflexivity.
Defined.

(** X5: no context is accepted both by a predicate that asks for ["jwt"]
    and by one that asks for ["token"], and none is accepted by both
    AuthorizedProvider and AuthorizedRequester. *)
Theorem predicates_exclusive (ctx : Context) (v w : UserContextValue) :
  (AuthorizedUser ctx = Val (Some v) ->
   AuthorizedServiceToken ctx <> Val (Some w) /\
   AuthorizedChangePassword ctx <> Val (Some w))
  /\
  (AuthorizedProvider ctx = Val (Some v) ->
   AuthorizedRequester ctx <> Val (Some w)).
Proof.
  rewrite AuthorizedUser_eq, AuthorizedServiceToken_eq,
    AuthorizedChangePassword_eq, AuthorizedProvider_eq, AuthorizedRequester_eq.
  destruct (forContext ctx) as [x|]; [|split; discriminate].
  destruct (User x) as [u|]; [|split; discriminate].
  destruct (String.eqb (AuthType x) "jwt") eqn:J; [|split; discriminate].
  apply String.eqb_eq in J. rewrite J. cbn. split.
  - intros _. split; discriminate.
  - destruct (EmailVerified u), (CanRequestWork u), (Type_ u); cbn;
      intros P; try discriminate P; discriminate.
Qed.

Lemma predicates_exclusive_witness :
  AuthorizedServiceToken (sample.authContext sample.alice "jwt")
  <> Val (Some {| User := Some sample.alice; AuthType := "jwt" |})
  /\
  AuthorizedChangePassword (sample.authContext sample.alice "jwt")
  <> Val (Some {| User := Some sample.alice; AuthType := "jwt" |}).
Proof.
  apply (proj1 (predicates_exclusive
                  (sample.authContext sample.alice "jwt")
                  {| User := Some sample.alice; AuthType := "jwt" |}
                  {| User := Some sample.alice; AuthType := "jwt" |})).
  reflexivity.
Defined.

(** X6: AuthorizedServiceToken asks of the identity what AuthorizedRequester
    asks: for one and the same identity, the first accepts it under
    AuthType ["token"] exactly when the second accepts it under ["jwt"]. *)
Theorem service_token_mirrors_requester (parent : Context)
  (user : option models.User) :
  let under t :=
    WithValue parent userCtxKey
      (ptr_UserContextValue (Some {| User := user; AuthType := t |})) in
  AuthorizedServiceToken (under "token")
  = Val (Some {| User := user; AuthType := "token" |})
  <->
  AuthorizedRequester (under "jwt")
  = Val (Some {| User := user; AuthType := "jwt" |}).
Proof.
  intros under.
  rewrite AuthorizedServiceToken_eq, AuthorizedRequester_eq.
  unfold under. rewrite !forContext_WithValue. cbn.
  destruct user as [[[] [] []]|]; cbn; split; intros E;
    try reflexivity; discriminate E.
Qed.

Lemma service_token_mirrors_requester_witness :
  AuthorizedRequester (sample.authContext sample.alice "jwt")
  = Val (Some {| User := Some sample.alice; AuthType := "jwt" |}).
Proof.
  apply (proj1 (service_token_mirrors_requester Background
                  (Some sample.alice))).
  reflexivity.
Defined.

(** X7: a context value whose identity is nil, as the middleware stores it
    when the identity store returns no user and no error, is denied by all
    five predicates, and none of them panics on it. *)
Theorem nil_identity_denied (ctx : Context) (v : UserContextValue) :
  forContext ctx = Some v ->
  User v = None ->
  AuthorizedUser ctx = Val None /\
  AuthorizedProvider ctx = Val None /\
  AuthorizedRequester ctx = Val None /\
  AuthorizedServiceToken ctx = Val None /\
  AuthorizedChangePassword ctx = Val None.
Proof.
  intros F U.
  rewrite AuthorizedUser_eq, AuthorizedProvider_eq, AuthorizedRequester_eq,
    AuthorizedServiceToken_eq, AuthorizedChangePassword_eq, F, U.
  now repeat split.
Qed.

Lemma nil_identity_denied_witness :
  AuthorizedUser
    (WithValue Background userCtxKey
       (ptr_UserContextValue (Some {| User := None; AuthType := "jwt" |})))
  = Val None.
Proof.
  apply (nil_identity_denied
           (WithValue Background userCtxKey
              (ptr_UserContextValue
                 (Some {| User := None; AuthType := "jwt" |})))
           {| User := None; AuthType := "jwt" |});
    reflexivity.
Defined.

(** ** The middleware *)

Lemma key_eqb_eq (a b : key) : key_eqb a b = true <-> a = b.
Proof.
  destruct a as [m|s], b as [n|t]; cbn; split; intros E;
    try discriminate E.
  - apply Nat.eqb_eq in E. now subst.
  - injection E as ->. apply Nat.eqb_refl.
  - apply String.eqb_eq in E. now subst.
  - injection E as ->. apply String.eqb_refl.
Qed.

Lemma Value_other_key (parent : Context) (val : any) (k : key) :
  k <> userCtxKey -> Value (WithValue parent userCtxKey val) k = Value parent k.
Proof.
  intros N. cbn [Value].
  destruct (key_eqb userCtxKey k) eqn:E; [|reflexivity].
  apply key_eqb_eq in E. now destruct N.
Qed.

(** Every run of the handler takes one of three shapes. *)
Lemma AuthMiddleware_cases (C : Collaborators) (r : Request) :
  AuthMiddleware C r = serveNext r
  \/ (exists user t,
         (t = "token" \/ t = "jwt") /\ AuthMiddleware C r = attach r user t)
  \/ (exists lines,
         AuthMiddleware C r = invalidToken C r lines /\
         (lines = [] \/
          HasPrefix (Header_Get (header r) "Authorization") "service:" = true
          /\ exists text,
               lines = [(text ++ Header_Get (header r) "Authorization"
                         ++ ":" ++ GetIPAddress C r)%string])).
Proof.
  unfold AuthMiddleware. cbv zeta.
  destruct (String.eqb _ EmptyString); [now left|].
  destruct (HasPrefix _ "resetpassword:").
  - destruct (ParseToken C _) as [email|];
      [|right; right; exists []; now split; [|left]].
    destruct (GetResetPasswordToken C email);
      [|right; right; exists []; now split; [|left]].
    destruct (GetUser C None (Some email)) as [user|]; [|now left].
    right; left. exists user, "token". split; [now left|reflexivity].
  - destruct (HasPrefix _ "service:") eqn:S.
    + destruct (Contains _ _); cbn [negb].
      * destruct (GetServiceTokenUser C _) as [userID|].
        -- destruct (uuid_Parse C userID) as [userUUID|];
             [|right; right; exists []; now split; [|left]].
           destruct (GetUser C (Some userUUID) None) as [user|]; [|now left].
           right; left. exists user, "token". split; [now left|reflexivity].
        -- right; right. eexists. split; [reflexivity|].
           right. split; [reflexivity|].
           now exists "INVALID TOKEN ATTEMPT ".
      * right; right. eexists. split; [reflexivity|].
        right. split; [reflexivity|].
        now exists "INVALID TOKEN ATTEMPT 1 ".
    + destruct (ParseToken C _) as [email|];
        [|right; right; exists []; now split; [|left]].
      destruct (GetUser C None (Some email)) as [user|]; [|now left].
      right; left. exists user, "jwt". split; [now right|reflexivity].
Qed.

(** X8: a request the middleware hands on keeps its headers and remote
    address, and every context value stored under a key other than
    [userCtxKey]; it is either the request as it arrived or carries a new
    value of AuthType ["token"] or ["jwt"], which hides any value the
    incoming context held. *)
Theorem middleware_preserves_request (C : Collaborators) (r r' : Request) :
  outcome (AuthMiddleware C r) = ServeNext r' ->
  header r' = header r /\
  RemoteAddr r' = RemoteAddr r /\
  (forall k, k <> userCtxKey -> Value (context r') k = Value (context r) k) /\
  (r' = r \/
   exists user t,
     (t = "token" \/ t = "jwt") /\
     forContext (context r') = Some {| User := user; AuthType := t |}).
Proof.
  intros E.
  destruct (AuthMiddleware_cases C r) as [H|[(user & t & T & H)|(l & H & _)]];
    rewrite H in E; cbn in E; try discriminate E; injection E as <-.
  - repeat split. now left.
  - repeat split.
    + intros k N. cbn [context WithContext]. now apply Value_other_key.
    + right. now exists user, t.
Qed.

Lemma middleware_preserves_request_witness :
  header (WithContext (sample.request "alice.jwt")
            (sample.authContext sample.alice "jwt"))
  = header (sample.request "alice.jwt").
Proof.
  apply (middleware_preserves_request sample.collaborators
           (sample.request "alice.jwt")
           (WithContext (sample.request "alice.jwt")
              (sample.authContext sample.alice "jwt"))).
  reflexivity.
Defined.

(** X9: the handler writes to the log only when it rejects a header that
    starts with [service:], and every line it writes ends with that header,
    a colon and the caller's IP address; a request handed to the next
    handler leaves no line. *)
Theorem log_only_on_service_rejection (C : Collaborators) (r : Request) :
  (forall r', outcome (AuthMiddleware C r) = ServeNext r' ->
              log (AuthMiddleware C r) = [])
  /\
  (forall line,
      In line (log (AuthMiddleware C r)) ->
      HasPrefix (Header_Get (header r) "Authorization") "service:" = true /\
      outcome (AuthMiddleware C r)
      = Error (formatGraphqlError C (context r) "Invalid Token") 403 /\
      exists text,
        line = (text ++ Header_Get (header r) "Authorization" ++ ":"
                ++ GetIPAddress C r)%string).
Proof.
  destruct (AuthMiddleware_cases C r)
    as [H|[(user & t & T & H)|(l & H & [->|(S & text & ->)])]];
    rewrite H; cbn [log outcome serveNext attach invalidToken]; split;
    try discriminate; try reflexivity; try (intros line I; now destruct I).
  intros line [<-|I]; [|now destruct I].
  split; [exact S|]. split; [reflexivity|]. now exists text.
Qed.

Lemma log_only_on_service_rejection_witness :
  HasPrefix (Header_Get (header (sample.request "service:unlisted"))
               "Authorization") "service:" = true.
Proof.
  apply (proj2 (log_only_on_service_rejection sample.collaborators
                  (sample.request "service:unlisted"))
           "INVALID TOKEN ATTEMPT 1 service:unlisted:203.0.113.7").
  left. reflexivity.
Defined.

Lemma attached_value (r r' : Request) (user : option models.User)
  (t : string) :
  outcome (attach r user t) = ServeNext r' ->
  forContext (context r') = Some {| User := user; AuthType := t |}.
Proof. intros E. injection E as <-. reflexivity. Qed.

(** X10: a non-empty header with neither prefix is decoded as a whole, with
    nothing stripped: a failed decoding is answered with 403 and nothing is
    logged; with a decoded email and a resolved identity the context handed
    on yields, under [userCtxKey], a value with that identity and AuthType
    ["jwt"], whatever the context held before; and the next handler is
    reached only when the header decoded. *)
Theorem bearer_scheme (C : Collaborators) (r : Request) :
  let h := Header_Get (header r) "Authorization" in
  h <> EmptyString ->
  HasPrefix h "resetpassword:" = false ->
  HasPrefix h "service:" = false ->
  (forall e,
      ParseToken C h = Err e ->
      AuthMiddleware C r =
      {| log := [];
         outcome := Error (formatGraphqlError C (context r) "Invalid Token") 403 |})
  /\
  (forall email user,
      ParseToken C h = Ok email ->
      GetUser C None (Some email) = Ok user ->
      exists r',
        AuthMiddleware C r = {| log := []; outcome := ServeNext r' |} /\
        r' = WithContext r
               (WithValue (context r) userCtxKey
                  (ptr_UserContextValue
                     (Some {| User := user; AuthType := "jwt" |}))) /\
        forContext (context r')
        = Some {| User := user; AuthType := "jwt" |} /\
        header r' = header r /\
        RemoteAddr r' = RemoteAddr r)
  /\
  (forall r',
      outcome (AuthMiddleware C r) = ServeNext r' ->
      exists email,
        ParseToken C h = Ok email /\
        (r' = r /\ (exists e, GetUser C None (Some email) = Err e)
         \/
         exists user,
           GetUser C None (Some email) = Ok user /\
           forContext (context r')
           = Some {| User := user; AuthType := "jwt" |})).
Proof.
  intros h N R S. rewrite (AuthMiddleware_bearer C r N R S). fold h.
  split; [|split].
  - now intros e ->.
  - intros email user -> ->.
    eexists. split; [reflexivity|]. now repeat split.
  - intros r'. destruct (ParseToken C h) as [email|]; [|discriminate].
    intros E. exists email. split; [reflexivity|].
    destruct (GetUser C None (Some email)) as [user|e].
    + right. exists user. split; [reflexivity|].
      exact (attached_value _ _ _ _ E).
    + left. injection E as <-. split; [reflexivity|]. now exists e.
Qed.

Lemma bearer_scheme_witness :
  exists r',
    AuthMiddleware sample.collaborators (sample.request "alice.jwt")
    = {| log := []; outcome := ServeNext r' |} /\
    forContext (context r')
    = Some {| User := Some sample.alice; AuthType := "jwt" |}.
Proof.
  assert (N : Header_Get (header (sample.request "alice.jwt")) "Authorization"
              <> EmptyString) by discriminate.
  destruct (proj1 (proj2 (bearer_scheme sample.collaborators
                            (sample.request "alice.jwt") N eq_refl eq_refl))
              "alice@example.com" (Some sample.alice) eq_refl eq_refl)
    as (r' & A & _ & F & _).
  exists r'. split; [exact A|exact F].
Defined.

(** X11: what the bearer scheme hands on, for a request that arrived
    without a context value, is denied by AuthorizedServiceToken and by
    AuthorizedChangePassword. *)
Theorem jwt_context_denied_where_token_required (C : Collaborators)
  (r r' : Request) :
  let h := Header_Get (header r) "Authorization" in
  HasPrefix h "resetpassword:" = false ->
  HasPrefix h "service:" = false ->
  forContext (context r) = None ->
  outcome (AuthMiddleware C r) = ServeNext r' ->
  AuthorizedServiceToken (context r') = Val None /\
  AuthorizedChangePassword (context r') = Val None.
Proof.
  intros h R S A E.
  rewrite AuthorizedServiceToken_eq, AuthorizedChangePassword_eq.
  destruct (String.eqb h EmptyString) eqn:Z.
  - apply String.eqb_eq in Z.
    rewrite (AuthMiddleware_anonymous C r Z) in E. injection E as <-.
    now rewrite A.
  - apply String.eqb_neq in Z.
    rewrite (AuthMiddleware_bearer C r Z R S) in E.
    destruct (ParseToken C _) as [email|]; [|discriminate].
    destruct (GetUser C None (Some email)) as [user|].
    + rewrite (attached_value _ _ _ _ E). cbn. now destruct user.
    + injection E as <-. now rewrite A.
Qed.

Lemma jwt_context_denied_where_token_required_witness :
  AuthorizedServiceToken (sample.authContext sample.alice "jwt") = Val None /\
  AuthorizedChangePassword (sample.authContext sample.alice "jwt") = Val None.
Proof.
  apply (jwt_context_denied_where_token_required sample.collaborators
           (sample.request "alice.jwt")
           (WithContext (sample.request "alice.jwt")
              (sample.authContext sample.alice "jwt")));
    reflexivity.
Defined.

Section Success.

Variable C : Collaborators.
Variable r : Request.

Local Abbreviation h := (Header_Get (header r) "Authorization").

Lemma resetpassword_attaches (email stored : string)
  (user : option models.User) :
  HasPrefix h "resetpassword:" = true ->
  ParseToken C (slice_from 14 h) = Ok email ->
  GetResetPasswordToken C email = Ok stored ->
  GetUser C None (Some email) = Ok user ->
  AuthMiddleware C r = attach r user "token".
Proof.
  intros H P G U. rewrite (AuthMiddleware_resetpassword C r H).
  now rewrite P, G, U.
Qed.

Lemma service_attaches (userID : string) (userUUID : UUID)
  (user : option models.User) :
  HasPrefix h "service:" = true ->
  In h (GetServiceTokens C) ->
  GetServiceTokenUser C h = Ok userID ->
  uuid_Parse C userID = Ok userUUID ->
  GetUser C (Some userUUID) None = Ok user ->
  AuthMiddleware C r = attach r user "token".
Proof.
  intros H I G P U. apply Contains_In in I.
  rewrite (AuthMiddleware_service C r H). now rewrite I, G, P, U.
Qed.

Lemma bearer_attaches (email : string) (user : option models.User) :
  h <> EmptyString ->
  HasPrefix h "resetpassword:" = false ->
  HasPrefix h "service:" = false ->
  ParseToken C h = Ok email ->
  GetUser C None (Some email) = Ok user ->
  AuthMiddleware C r = attach r user "jwt".
Proof.
  intros N R S P U. rewrite (AuthMiddleware_bearer C r N R S).
  now rewrite P, U.
Qed.

End Success.

(** X12: middleware and predicates fit together.  Whatever context the
    request arrived with, a bearer token that resolves to an identity
    passes AuthorizedUser, a reset-password token that resolves to an
    identity passes AuthorizedChangePassword, and a service token that
    resolves to a verified requester allowed to request work passes
    AuthorizedServiceToken, each returning the attached value. *)
Theorem resolved_identity_accepted (C : Collaborators) (r : Request)
  (u : models.User) :
  let h := Header_Get (header r) "Authorization" in
  (forall email,
      h <> EmptyString ->
      HasPrefix h "resetpassword:" = false ->
      HasPrefix h "service:" = false ->
      ParseToken C h = Ok email ->
      GetUser C None (Some email) = Ok (Some u) ->
      exists r',
        outcome (AuthMiddleware C r) = ServeNext r' /\
        AuthorizedUser (context r')
        = Val (Some {| User := Some u; AuthType := "jwt" |}))
  /\
  (forall email stored,
      HasPrefix h "resetpassword:" = true ->
      ParseToken C (slice_from 14 h) = Ok email ->
      GetResetPasswordToken C email = Ok stored ->
      GetUser C None (Some email) = Ok (Some u) ->
      exists r',
        outcome (AuthMiddleware C r) = ServeNext r' /\
        AuthorizedChangePassword (context r')
        = Val (Some {| User := Some u; AuthType := "token" |}))
  /\
  (forall userID userUUID,
      HasPrefix h "service:" = true ->
      In h (GetServiceTokens C) ->
      GetServiceTokenUser C h = Ok userID ->
      uuid_Parse C userID = Ok userUUID ->
      GetUser C (Some userUUID) None = Ok (Some u) ->
      EmailVerified u = true ->
      CanRequestWork u = true ->
      Type_ u = REQUESTER ->
      exists r',
        outcome (AuthMiddleware C r) = ServeNext r' /\
        AuthorizedServiceToken (context r')
        = Val (Some {| User := Some u; AuthType := "token" |})).
Proof.
  intros h. split; [|split].
  - intros email N R S P U.
    rewrite (bearer_attaches C r email _ N R S P U).
    eexists. split; [reflexivity|]. now rewrite AuthorizedUser_eq.
  - intros email stored H P G U.
    rewrite (resetpassword_attaches C r email stored _ H P G U).
    eexists. split; [reflexivity|]. now rewrite AuthorizedChangePassword_eq.
  - intros userID userUUID H I G P U EV CR TY.
    rewrite (service_attaches C r userID userUUID _ H I G P U).
    eexists. split; [reflexivity|].
    rewrite AuthorizedServiceToken_eq. cbn. now rewrite EV, CR, TY.
Qed.

Lemma resolved_identity_accepted_witness :
  exists r',
    outcome (AuthMiddleware sample.collaborators
               (sample.request "service:alice")) = ServeNext r' /\
    AuthorizedServiceToken (context r')
    = Val (Some {| User := Some sample.alice; AuthType := "token" |}).
Proof.
  apply (proj2 (proj2 (resolved_identity_accepted sample.collaborators
                         (sample.request "service:alice") sample.alice))
           "00000000-0000-0000-0000-000000000001" 1%N);
    try reflexivity.
  left. reflexivity.
Defined.

(** X13: the predicates cannot tell the two token schemes apart.  A service
    token that resolves to any identity, verified or not, passes
    AuthorizedChangePassword, and a reset-password token that resolves to a
    verified requester allowed to request work passes
    AuthorizedServiceToken. *)
Theorem token_schemes_interchangeable (C : Collaborators) (r : Request)
  (u : models.User) :
  let h := Header_Get (header r) "Authorization" in
  (forall userID userUUID,
      HasPrefix h "service:" = true ->
      In h (GetServiceTokens C) ->
      GetServiceTokenUser C h = Ok userID ->
      uuid_Parse C userID = Ok userUUID ->
      GetUser C (Some userUUID) None = Ok (Some u) ->
      exists r',
        outcome (AuthMiddleware C r) = ServeNext r' /\
        AuthorizedChangePassword (context r')
        = Val (Some {| User := Some u; AuthType := "token" |}))
  /\
  (forall email stored,
      HasPrefix h "resetpassword:" = true ->
      ParseToken C (slice_from 14 h) = Ok email ->
      GetResetPasswordToken C email = Ok stored ->
      GetUser C None (Some email) = Ok (Some u) ->
      EmailVerified u = true ->
      CanRequestWork u = true ->
      Type_ u = REQUESTER ->
      exists r',
        outcome (AuthMiddleware C r) = ServeNext r' /\
        AuthorizedServiceToken (context r')
        = Val (Some {| User := Some u; AuthType := "token" |})).
Proof.
  intros h. split.
  - intros userID userUUID H I G P U.
    rewrite (service_attaches C r userID userUUID _ H I G P U).
    eexists. split; [reflexivity|]. now rewrite AuthorizedChangePassword_eq.
  - intros email stored H P G U EV CR TY.
    rewrite (resetpassword_attaches C r email stored _ H P G U).
    eexists. split; [reflexivity|].
    rewrite AuthorizedServiceToken_eq. cbn. now rewrite EV, CR, TY.
Qed.

Lemma token_schemes_interchangeable_witness :
  (exists r',
      outcome (AuthMiddleware sample.collaborators
                 (sample.request "service:alice")) = ServeNext r' /\
      AuthorizedChangePassword (context r')
      = Val (Some {| User := Some sample.alice; AuthType := "token" |}))
  /\
  (exists r',
      outcome (AuthMiddleware sample.collaborators
                 (sample.request "resetpassword:alice.jwt")) = ServeNext r' /\
      AuthorizedServiceToken (context r')
      = Val (Some {| User := Some sample.alice; AuthType := "token" |})).
Proof.
  split.
  - apply (proj1 (token_schemes_interchangeable sample.collaborators
                    (sample.request "service:alice") sample.alice)
             "00000000-0000-0000-0000-000000000001" 1%N);
      try reflexivity.
    left. reflexivity.
  - apply (proj2 (token_schemes_interchangeable sample.collaborators
                    (sample.request "resetpassword:alice.jwt") sample.alice)
             "alice@example.com" "alice.jwt");
      reflexivity.
Defined.

(** X14: each scheme consults only its own collaborators.  Under a header
    that starts with [service:] the run does not depend on the token
    decoder or the one-time-token store; under any other header it does
    not depend on the service-token set, the service-token store or the
    UUID parser; and without the [resetpassword:] prefix it does not depend
    on the one-time-token store. *)
Theorem schemes_consult_own_collaborators (C : Collaborators) (r : Request)
  (parse : string -> result string) (reset : string -> result string)
  (tokens : list string) (bound : string -> result string)
  (parseUUID : string -> result UUID) :
  let h := Header_Get (header r) "Authorization" in
  (HasPrefix h "service:" = true ->
   AuthMiddleware
     {| ParseToken := parse; GetResetPasswordToken := reset;
        GetServiceTokens := GetServiceTokens C;
        GetServiceTokenUser := GetServiceTokenUser C;
        uuid_Parse := uuid_Parse C; GetUser := GetUser C;
        GetIPAddress := GetIPAddress C;
        MarshalErrorResponse := MarshalErrorResponse C |} r
   = AuthMiddleware C r)
  /\
  (HasPrefix h "service:" = false ->
   AuthMiddleware
     {| ParseToken := ParseToken C;
        GetResetPasswordToken := GetResetPasswordToken C;
        GetServiceTokens := tokens; GetServiceTokenUser := bound;
        uuid_Parse := parseUUID; GetUser := GetUser C;
        GetIPAddress := GetIPAddress C;
        MarshalErrorResponse := MarshalErrorResponse C |} r
   = AuthMiddleware C r)
  /\
  (HasPrefix h "resetpassword:" = false ->
   AuthMiddleware
     {| ParseToken := ParseToken C; GetResetPasswordToken := reset;
        GetServiceTokens := GetServiceTokens C;
        GetServiceTokenUser := GetServiceTokenUser C;
        uuid_Parse := uuid_Parse C; GetUser := GetUser C;
        GetIPAddress := GetIPAddress C;
        MarshalErrorResponse := MarshalErrorResponse C |} r
   = AuthMiddleware C r).
Proof.
  intros h. split; [|split].
  - intros S. now rewrite !(AuthMiddleware_service _ r S).
  - intros S. unfold AuthMiddleware. cbv zeta. fold h. rewrite S.
    reflexivity.
  - intros R. unfold AuthMiddleware. cbv zeta. fold h. rewrite R.
    reflexivity.
Qed.

Lemma schemes_consult_own_collaborators_witness :
  AuthMiddleware
    {| ParseToken := fun _ => Ok "alice@example.com";
       GetResetPasswordToken := fun _ => Ok "any";
       GetServiceTokens := sample.serviceTokens;
       GetServiceTokenUser := sample.serviceTokenUser;
       uuid_Parse := sample.parseUUID; GetUser := sample.users;
       GetIPAddress := RemoteAddr;
       MarshalErrorResponse := fun _ m => Ok (sample.envelope m) |}
    (sample.request "service:unlisted")
  = AuthMiddleware sample.collaborators (sample.request "service:unlisted").
Proof.
  apply (proj1 (schemes_consult_own_collaborators sample.collaborators
                  (sample.request "service:unlisted")
                  (fun _ => Ok "alice@example.com") (fun _ => Ok "any")
                  [] (fun _ => Err "none") (fun _ => Err "none"))).
  reflexivity.
Defined.

(** X15: a rejection does not tell which check failed: the status is always
    403, and two rejected requests that carry the same context get the same
    body, whatever their headers and whichever scheme refused them. *)
Theorem rejections_indistinguishable (C : Collaborators) (r1 r2 : Request)
  (body1 body2 : string) (code1 code2 : nat) :
  outcome (AuthMiddleware C r1) = Error body1 code1 ->
  outcome (AuthMiddleware C r2) = Error body2 code2 ->
  context r1 = context r2 ->
  code1 = 403 /\ code2 = 403 /\ body1 = body2.
Proof.
  intros E1 E2 K.
  apply rejections_share_one_body in E1 as [-> ->].
  apply rejections_share_one_body in E2 as [-> ->].
  now rewrite K.
Qed.

Lemma rejections_indistinguishable_witness :
  403 = 403 /\ 403 = 403 /\
  sample.envelope "Invalid token" = sample.envelope "Invalid token".
Proof.
  apply (rejections_indistinguishable sample.collaborators
           (sample.request "resetpassword:garbage")
           (sample.request "service:unlisted"));
    reflexivity.
Defined.

(** ** The command line *)

(** X16: [main] calls [runServer] exactly when there are at least two
    arguments and the second is [server]; it runs a shell command exactly
    when the second is [gqlgen] or [db:reset], and then the command that
    belongs to it. *)
Theorem main_dispatch (Args : list string) :
  (In command.RunServer (command.main Args) <->
   2 <= length Args /\ nth 1 Args EmptyString = "server")
  /\
  (forall cmd,
      In (command.Exec cmd) (command.main Args) <->
      2 <= length Args /\
      (nth 1 Args EmptyString = "gqlgen" /\
       cmd = "bash -c 'gqlgen generate --verbose'"
       \/
       nth 1 Args EmptyString = "db:reset" /\
       cmd = "bash -c './scripts/reset_db.sh'")).
Proof.
  unfold command.main.
  destruct (Nat.ltb_spec (length Args) 2) as [L|L].
  - split; [|intros cmd]; split.
    + intros [E|[E|[]]]; discriminate E.
    + intros [G _]. lia.
    + intros [E|[E|[]]]; discriminate E.
    + intros [G _]. lia.
  - cbv zeta.
    destruct (String.eqb_spec (nth 1 Args EmptyString) "gqlgen") as [->|NG].
    { split; [|intros cmd]; split.
      - intros [E|[E|[]]]; discriminate E.
      - intros [_ E]. discriminate E.
      - intros [E|[E|[]]]; [discriminate E|injection E as <-].
        split; [exact L|]. now left.
      - intros [_ [[_ ->]|[E _]]]; [right; now left|discriminate E]. }
    destruct (String.eqb_spec (nth 1 Args EmptyString) "db:reset") as [->|ND].
    { split; [|intros cmd]; split.
      - intros [E|[E|[]]]; discriminate E.
      - intros [_ E]. discriminate E.
      - intros [E|[E|[]]]; [discriminate E|injection E as <-].
        split; [exact L|]. now right.
      - intros [_ [[E _]|[_ ->]]]; [discriminate E|right; now left]. }
    destruct (String.eqb_spec (nth 1 Args EmptyString) "server") as [->|NS].
    { split; [|intros cmd]; split.
      - intros _. now split.
      - intros _. now left.
      - intros [E|[]]. discriminate E.
      - intros [_ [[E _]|[E _]]]; discriminate E. }
    split; [|intros cmd]; split.
    + intros [E|[E|[]]]; discriminate E.
    + intros [_ E]. now destruct NS.
    + intros [E|[E|[]]]; discriminate E.
    + intros [_ [[E _]|[E _]]]; [now destruct NG|now destruct ND].
Qed.

Lemma main_dispatch_witness :
  In command.RunServer (command.main ["boompow"; "server"; "--verbose"]).
Proof.
  apply (proj2 (proj1 (main_dispatch ["boompow"; "server"; "--verbose"]))).
  split; [cbn; lia|reflexivity].
Defined.

(** X17: a run whose second argument is missing or is none of [gqlgen],
    [db:reset] and [server], and so every run with a flag in front of the
    command, starts neither the server nor a shell command and ends in
    [os.Exit]: with status 2 from [usage], before [main] is entered, when
    [flag.Parse] refused the arguments, and with status 1 from [main]
    otherwise. *)
Theorem unknown_command_ends_process (parses : list string -> bool)
  (Args : list string) :
  1 <= length Args ->
  (HasPrefix (nth 1 Args EmptyString) "-" = true ->
   ~ In (nth 1 Args EmptyString) command.commands)
  /\
  (~ In (nth 1 Args EmptyString) command.commands ->
   ~ In command.RunServer (command.process parses Args) /\
   (forall cmd, ~ In (command.Exec cmd) (command.process parses Args)) /\
   exists before code,
     command.process parses Args = (before ++ [command.Exit code])%list /\
     (forall c, ~ In (command.Exit c) before) /\
     (parses (tl Args) = false ->
      code = 2 /\ forall out, ~ In (command.Printf out) before) /\
     (parses (tl Args) = true ->
      code = 1 /\ exists out, In (command.Printf out) before)).
Proof.
  intros L. split.
  - intros P [E|[E|[E|[]]]]; rewrite <- E in P; discriminate P.
  - intros U. unfold command.process, command.init. cbv zeta.
    destruct (parses (tl Args)) eqn:PA.
    + assert (M : command.main Args
                  = [command.Printf "Error: must specify at least 1 argument";
                     command.Exit 1]
                  \/
                  command.main Args
                  = [command.Printf ("Invalid command "
                                     ++ nth 1 Args EmptyString
                                     ++ command.newline)%string;
                     command.Exit 1]).
      { unfold command.main. destruct (Nat.ltb (length Args) 2); [now left|].
        cbv zeta. right.
        destruct (String.eqb_spec (nth 1 Args EmptyString) "gqlgen") as [E|_];
          [destruct U; rewrite E; now left|].
        destruct (String.eqb_spec (nth 1 Args EmptyString) "db:reset")
          as [E|_]; [destruct U; rewrite E; right; now left|].
        destruct (String.eqb_spec (nth 1 Args EmptyString) "server")
          as [E|_]; [destruct U; rewrite E; right; right; now left|].
        reflexivity. }
      destruct M as [-> | ->]; cbn [app].
      * split; [intros I; repeat destruct I as [I|I]; try discriminate I;
                exact I|].
        split; [intros cmd I; repeat destruct I as [I|I];
                try discriminate I; exact I|].
        eexists [_; _; _; _], 1. split; [reflexivity|].
        split; [intros c I; repeat destruct I as [I|I]; try discriminate I;
                exact I|].
        split; [discriminate|]. intros _. split; [reflexivity|].
        eexists. right; right; right; left. reflexivity.
      * split; [intros I; repeat destruct I as [I|I]; try discriminate I;
                exact I|].
        split; [intros cmd I; repeat destruct I as [I|I];
                try discriminate I; exact I|].
        eexists [_; _; _; _], 1. split; [reflexivity|].
        split; [intros c I; repeat destruct I as [I|I]; try discriminate I;
                exact I|].
        split; [discriminate|]. intros _. split; [reflexivity|].
        eexists. right; right; right; left. reflexivity.
    + unfold command.usage. cbn [app].
      split; [intros I; repeat destruct I as [I|I]; try discriminate I;
              exact I|].
      split; [intros cmd I; repeat destruct I as [I|I];
              try discriminate I; exact I|].
      eexists [_; _; _; _], 2. split; [reflexivity|].
      split; [intros c I; repeat destruct I as [I|I]; try discriminate I;
              exact I|].
      split; [|discriminate]. intros _. split; [reflexivity|].
      intros out I; repeat destruct I as [I|I]; try discriminate I; exact I.
Qed.

Lemma unknown_command_ends_process_witness :
  ~ In command.RunServer
      (command.process (fun _ => true) ["boompow"; "-v=3"; "server"]).
Proof.
  assert (L : 1 <= length ["boompow"; "-v=3"; "server"]) by (cbn; lia).
  destruct (unknown_command_ends_process (fun _ => true)
              ["boompow"; "-v=3"; "server"] L) as [F U].
  apply U. apply F. reflexivity.
Defined.

(** ** Order on the work-event queue *)

Lemma recv_n_all {A} (n : nat) (xs : list A) :
  queue.recv_n (length xs) (main.mkChan n xs) = (xs, main.mkChan n []).
Proof.
  induction xs as [|x xs IH]; [reflexivity|].
  cbn [length queue.recv_n]. unfold main.recv. cbn [main.pending main.cap].
  now rewrite IH.
Qed.

(** X18: work messages sent on [statsChan] while it has room come out in
    the order they went in: after up to 100 sends, as many receives return
    exactly the messages sent, first in first out, and empty the queue. *)
Theorem statsChan_fifo (WorkMessage ClientMessage : Type)
  (ws : list WorkMessage) :
  length ws <= 100 ->
  exists c,
    main.send_all (main.statsChan (main.runServer WorkMessage ClientMessage)) ws
    = Some c /\
    queue.recv_n (length ws) c = (ws, main.make WorkMessage 100) /\
    main.recv (main.make WorkMessage 100) = None.
Proof.
  intros H. exists (main.mkChan 100 ws). split; [|split].
  - cbn [main.runServer main.statsChan].
    now rewrite send_all_room by (cbn; lia).
  - apply recv_n_all.
  - reflexivity.
Qed.

Lemma statsChan_fifo_witness :
  exists c,
    main.send_all (main.statsChan (main.runServer nat bool)) [3; 1; 2]
    = Some c /\
    queue.recv_n 3 c = ([3; 1; 2], main.make nat 100) /\
    main.recv (main.make nat 100) = None.
Proof.
  apply (statsChan_fifo nat bool [3; 1; 2]). cbn. lia.
Defined.

(** ** Confirmation tokens in Redis *)

Lemma append_inj_r (p a b : string) :
  (p ++ a)%string = (p ++ b)%string -> a = b.
Proof.
  induction p as [|c p IH]; cbn; intros E; [exact E|].
  injection E as E. now apply IH.
Qed.

Lemma confirmationKey_inj (a b : string) :
  database.confirmationKey a = database.confirmationKey b -> a = b.
Proof. apply append_inj_r. Qed.

Lemma lookup_remove_same (k : string) (s : database.memory) :
  database.lookup k (database.remove k s) = Err "redis: nil".
Proof.
  unfold database.remove.
  induction s as [|[k' v] s IH]; [reflexivity|].
  cbn. destruct (String.eqb k' k) eqn:E; cbn; [exact IH|].
  now rewrite E.
Qed.

Lemma lookup_remove_other (k k' : string) (s : database.memory) :
  k' <> k ->
  database.lookup k' (database.remove k s) = database.lookup k' s.
Proof.
  intros N. unfold database.remove.
  induction s as [|[j v] s IH]; [reflexivity|].
  cbn. destruct (String.eqb j k) eqn:E; cbn.
  - apply String.eqb_eq in E. subst j.
    apply not_eq_sym, String.eqb_neq in N. now rewrite N.
  - now rewrite IH.
Qed.

Lemma memoryClient_store : database.KeyValueStore database.memoryClient.
Proof.
  constructor; cbn.
  - intros k v d s s' E. injection E as <-. cbn. now rewrite String.eqb_refl.
  - intros k k' v d s res s' N E. injection E as _ <-. cbn.
    apply not_eq_sym in N. apply String.eqb_neq in N. rewrite N.
    apply lookup_remove_other. apply String.eqb_neq in N. congruence.
  - intros k s n s' E. injection E as _ <-. eexists.
    apply lookup_remove_same.
  - intros k k' s res s' N E. injection E as _ <-.
    now apply lookup_remove_other.
Qed.

Section Confirmation.

Context {S : Type}.
Variable r : database.redisManager S.
Hypothesis store : database.KeyValueStore (database.Client_ r).
Variable minutes : N.

(** X19: the manager keeps confirmation tokens by email.  A token stored
    for an email is the one read back for it, whatever validity period is
    configured; after the token of an email is deleted, reading it back
    fails; and storing or deleting the token of one email leaves what is
    read back for every other email as it was. *)
Theorem confirmation_tokens_keyed_by_email (email token : string) (s : S) :
  (forall s',
      database.SetConfirmationToken r minutes email token s = (Ok tt, s') ->
      database.GetUserIDForConfirmationToken r email s' = Ok token)
  /\
  (forall n s',
      database.DeleteConfirmationToken r email s = (Ok n, s') ->
      exists e, database.GetUserIDForConfirmationToken r email s' = Err e)
  /\
  (forall other,
      other <> email ->
      database.GetUserIDForConfirmationToken r other
        (snd (database.SetConfirmationToken r minutes email token s))
      = database.GetUserIDForConfirmationToken r other s
      /\
      database.GetUserIDForConfirmationToken r other
        (snd (database.DeleteConfirmationToken r email s))
      = database.GetUserIDForConfirmationToken r other s).
Proof.
  unfold database.SetConfirmationToken, database.Set_,
    database.DeleteConfirmationToken, database.Del,
    database.GetUserIDForConfirmationToken, database.Get.
  split; [|split].
  - intros s'. apply (database.get_after_set _ store).
  - intros n s'. apply (database.get_after_del _ store).
  - intros other N.
    assert (K : database.confirmationKey other
                <> database.confirmationKey email)
      by (intros E; now apply confirmationKey_inj in E).
    split.
    + destruct (database.client_Set _ _ _ _ s) as [res s'] eqn:E.
      exact (database.get_after_set_other _ store _ _ _ _ _ _ _ K E).
    + destruct (database.client_Del _ _ s) as [res s'] eqn:E.
      exact (database.get_after_del_other _ store _ _ _ _ _ K E).
Qed.

End Confirmation.

Lemma confirmation_tokens_keyed_by_email_witness :
  database.GetUserIDForConfirmationToken
    (database.mkRedisManager _ database.memoryClient) "alice@example.com"
    [("emailconfirmation:alice@example.com", "t0k3n");
     ("emailconfirmation:bob@example.com", "b0b")]
  = Ok "t0k3n"
  /\
  database.GetUserIDForConfirmationToken
    (database.mkRedisManager _ database.memoryClient) "bob@example.com"
    (snd (database.SetConfirmationToken
            (database.mkRedisManager _ database.memoryClient) 1440
            "alice@example.com" "t0k3n"
            [("emailconfirmation:bob@example.com", "b0b")]))
  = Ok "b0b".
Proof.
  pose proof (confirmation_tokens_keyed_by_email
                (database.mkRedisManager _ database.memoryClient)
                memoryClient_store 1440 "alice@example.com" "t0k3n"
                [("emailconfirmation:bob@example.com", "b0b")])
    as (R & _ & I).
  split.
  - apply R. reflexivity.
  - destruct (I "bob@example.com") as [E _]; [discriminate|].
    rewrite E. reflexivity.
Defined.
